(** * SAS device verification (package crypto of mautrix-go)

    A shallow embedding of the handshake engine: the MAC calculator, the
    method negotiation, the transaction store and the message handlers.
    The olm primitives, the JSON canonicaliser, the transport and the host
    callbacks are collaborators of the file and appear as parameters. *)

From stdpp Require Import gmap strings list sorting fin_maps.

Open Scope string_scope.

(** ** Identifiers and wire data *)

(** [id.UserID], [id.DeviceID], [id.KeyID], [id.SigningKey] and
    [event.SASMethod] are all Go string types. *)
Abbreviation UserID := string (only parsing).
Abbreviation DeviceID := string (only parsing).
Abbreviation KeyID := string (only parsing).
Abbreviation SigningKey := string (only parsing).
Abbreviation SASMethod := string (only parsing).

(** Addresses of [verificationState] records. *)
Abbreviation loc := nat (only parsing).

(** The cancel codes of the event package that this file names. *)
Inductive VerificationCancelCode :=
| VerificationCancelByUser
| VerificationCancelByTimeout
| VerificationCancelUnknownTransaction
| VerificationCancelUnknownMethod
| VerificationCancelUnexpectedMessage
| VerificationCancelKeyMismatch
| VerificationCancelUserMismatch
| VerificationCancelSASMismatch
| VerificationCancelCommitmentMismatch.

Inductive TrustState := TrustStateUnset | TrustStateVerified.

Record DeviceIdentity := {
  UserID_ : UserID;
  DeviceID_ : DeviceID;
  SigningKey_ : SigningKey;
  Trust : TrustState
}.

Inductive VerificationRequestResponse := AcceptRequest | RejectRequest | IgnoreRequest.

Record VerificationStartEventContent := {
  start_FromDevice : DeviceID;
  start_TransactionID : string;
  start_Method : string;
  start_KeyAgreementProtocols : list string;
  start_Hashes : list string;
  start_MessageAuthenticationCodes : list string;
  start_ShortAuthenticationString : list SASMethod
}.

Record VerificationAcceptEventContent := {
  accept_TransactionID : string;
  accept_Method : string;
  accept_KeyAgreementProtocol : string;
  accept_Hash : string;
  accept_MessageAuthenticationCode : string;
  accept_ShortAuthenticationString : list SASMethod;
  accept_Commitment : string
}.

Record VerificationKeyEventContent := {
  key_TransactionID : string;
  key_Key : string
}.

(** [Mac] is a Go map: [None] is the nil map, otherwise the list of its
    entries in the order in which [range] happens to enumerate them.  It is
    indexed by [mapIndex]. *)
Record VerificationMacEventContent := {
  mac_TransactionID : string;
  mac_Mac : option (list (KeyID * string));
  mac_Keys : string
}.

Record VerificationCancelEventContent := {
  cancel_TransactionID : string;
  cancel_Reason : string;
  cancel_Code : VerificationCancelCode
}.

Record VerificationRequestEventContent := {
  request_FromDevice : DeviceID;
  request_TransactionID : string;
  request_Methods : list string
}.

Inductive EventType :=
| ToDeviceVerificationStart
| ToDeviceVerificationAccept
| ToDeviceVerificationKey
| ToDeviceVerificationMAC
| ToDeviceVerificationCancel.

Inductive Content :=
| ContentStart (c : VerificationStartEventContent)
| ContentAccept (c : VerificationAcceptEventContent)
| ContentKey (c : VerificationKeyEventContent)
| ContentMac (c : VerificationMacEventContent)
| ContentCancel (c : VerificationCancelEventContent).

(** ** Go helpers *)

(** [m[k]] on a Go map of strings: the zero value when the key is absent. *)
Fixpoint entriesIndex (m : list (KeyID * string)) (k : KeyID) : string :=
  match m with
  | [] => ""
  | (k', v) :: m' => if String.eqb k' k then v else entriesIndex m' k
  end.

(** A nil map reads like an empty one. *)
Definition mapIndex (m : option (list (KeyID * string))) (k : KeyID) : string :=
  match m with
  | None => ""
  | Some entries => entriesIndex entries k
  end.

(** [strings.Join]. *)
Fixpoint Join (elems : list string) (sep : string) : string :=
  match elems with
  | [] => ""
  | [s] => s
  | s :: rest => s +:+ sep +:+ Join rest sep
  end.

(** [sort.Sort(sort.StringSlice(..))]: ascending byte-wise order. *)
Definition sortStrings (l : list string) : list string :=
  merge_sort String.le l.

(** ** Collaborators: the olm library and verification methods *)

(** [SAS] is the olm session object, [SASData] the short authentication
    string shown to the user, and [VerificationMethod] the interface with
    [Type] (here [MethodType]) and [GetVerificationSAS].  [CalculateMAC]
    takes the session, the input and the info string, in that order. *)
Class Olm := {
  SAS : Type;
  SASData : Type;
  VerificationMethod : Type;
  GetPubkey : SAS -> string;
  SetTheirKey : SAS -> string -> option SAS;
  CalculateMAC : SAS -> string -> string -> option string;
  Sha256 : string -> string;
  MethodType : VerificationMethod -> SASMethod;
  GetVerificationSAS :
    VerificationMethod -> UserID -> DeviceID -> string ->
    UserID -> DeviceID -> string -> string -> SAS -> option SASData;
  NewKeyID : string -> string -> KeyID;
  KeyAlgorithmEd25519 : string
}.

Section State.
Context {olm : Olm}.

(** ** The MAC calculator *)

Definition sasInfo (sendingUser : UserID) (sendingDevice : DeviceID)
    (receivingUser : UserID) (receivingDevice : DeviceID)
    (transactionID : string) : string :=
  "MATRIX_KEY_VERIFICATION_MAC" +:+
  sendingUser +:+ sendingDevice +:+
  receivingUser +:+ receivingDevice +:+
  transactionID.

(** The string MACed by the second call: the main key id, or, when a key
    map is given, its key ids sorted and joined with commas. *)
Definition keyIDString (mainKeyID : KeyID) (keys : option (list (KeyID * string))) : string :=
  match keys with
  | None => mainKeyID
  | Some ks => Join (sortStrings (ks.*1)) ","
  end.

Definition getPKAndKeysMAC (sas : SAS)
    (sendingUser : UserID) (sendingDevice : DeviceID)
    (receivingUser : UserID) (receivingDevice : DeviceID)
    (transactionID : string) (signingKey : SigningKey) (mainKeyID : KeyID)
    (keys : option (list (KeyID * string))) : option (string * string) :=
  let info := sasInfo sendingUser sendingDevice receivingUser receivingDevice transactionID in
  let kids := keyIDString mainKeyID keys in
  match CalculateMAC sas signingKey (info +:+ mainKeyID) with
  | None => None
  | Some pubKeyMac =>
    match CalculateMAC sas kids (info +:+ "KEY_IDS") with
    | None => None
    | Some keysMac => Some (pubKeyMac, keysMac)
    end
  end.

(** ** Method negotiation *)

Record VerificationHooks := {
  hooksID : nat;
  VerificationMethods : list VerificationMethod
}.

(** The inner loop of [commonSASMethods]: scan the peer's list and stop at
    the first method of the same type. *)
Fixpoint otherSupports (hookMethod : VerificationMethod)
    (otherDeviceMethods : list SASMethod) : bool :=
  match otherDeviceMethods with
  | [] => false
  | otherMethod :: rest =>
    if String.eqb (MethodType hookMethod) otherMethod then true
    else otherSupports hookMethod rest
  end.

(** The outer loop, with [methods] the slice built so far. *)
Fixpoint commonSASMethods_loop (methods hookMethods : list VerificationMethod)
    (otherDeviceMethods : list SASMethod) : list VerificationMethod :=
  match hookMethods with
  | [] => methods
  | hookMethod :: rest =>
    if otherSupports hookMethod otherDeviceMethods
    then commonSASMethods_loop (methods ++ [hookMethod]) rest otherDeviceMethods
    else commonSASMethods_loop methods rest otherDeviceMethods
  end.

Definition commonSASMethods (hooks : VerificationHooks)
    (otherDeviceMethods : list SASMethod) : list VerificationMethod :=
  commonSASMethods_loop [] (VerificationMethods hooks) otherDeviceMethods.

(** ** Transaction state *)

(** [sasMatched] is a channel of capacity one: empty or holding one value.
    [chosenSASMethod] is an interface value, nil until a method is chosen.
    The mutex and the [extendTimeout] handle carry no data; handlers run
    atomically and extending the timer is recorded as an effect. *)
Record verificationState := mkVerState {
  sas : SAS;
  otherDevice : DeviceIdentity;
  initiatedByUs : bool;
  verificationStarted : bool;
  keyReceived : bool;
  sasMatched : option bool;
  commitment : string;
  startEventCanonical : string;
  chosenSASMethod : option VerificationMethod;
  hooks : VerificationHooks
}.

Definition set_sas (v : verificationState) (s : SAS) : verificationState :=
  mkVerState s (otherDevice v) (initiatedByUs v) (verificationStarted v)
    (keyReceived v) (sasMatched v) (commitment v) (startEventCanonical v)
    (chosenSASMethod v) (hooks v).

Definition set_otherDevice (v : verificationState) (d : DeviceIdentity) : verificationState :=
  mkVerState (sas v) d (initiatedByUs v) (verificationStarted v)
    (keyReceived v) (sasMatched v) (commitment v) (startEventCanonical v)
    (chosenSASMethod v) (hooks v).

Definition set_keyReceived (v : verificationState) (b : bool) : verificationState :=
  mkVerState (sas v) (otherDevice v) (initiatedByUs v) (verificationStarted v)
    b (sasMatched v) (commitment v) (startEventCanonical v)
    (chosenSASMethod v) (hooks v).

Definition set_sasMatched (v : verificationState) (c : option bool) : verificationState :=
  mkVerState (sas v) (otherDevice v) (initiatedByUs v) (verificationStarted v)
    (keyReceived v) c (commitment v) (startEventCanonical v)
    (chosenSASMethod v) (hooks v).

Definition set_startEventCanonical (v : verificationState) (c : string) : verificationState :=
  mkVerState (sas v) (otherDevice v) (initiatedByUs v) (verificationStarted v)
    (keyReceived v) (sasMatched v) (commitment v) c
    (chosenSASMethod v) (hooks v).

(** The three assignments of [handleVerificationAccept]. *)
Definition set_accepted (v : verificationState) (c : string)
    (m : option VerificationMethod) : verificationState :=
  mkVerState (sas v) (otherDevice v) (initiatedByUs v) true
    (keyReceived v) (sasMatched v) c (startEventCanonical v)
    m (hooks v).

(** What the engine does to the outside: messages handed to the transport,
    host callbacks, trust-store writes, timers and spawned goroutines. *)
Inductive Effect :=
| SendToDevice (userID : UserID) (deviceID : DeviceID) (eventType : EventType) (content : Content)
| OnCancel (h : VerificationHooks) (cancelledByUs : bool) (reason : string) (code : VerificationCancelCode)
| OnSuccess (h : VerificationHooks)
| GoVerifySASMatch (p : loc) (transactionID : string) (device : DeviceIdentity) (sasData : SASData)
| GoAwaitSASMatched (p : loc) (content : VerificationMacEventContent)
| PutDevice (userID : UserID) (device : DeviceIdentity)
| ExtendTimeout (p : loc)
| TimeoutAfter (p : loc) (transactionID : string) (timeout : nat).

Inductive GoError :=
| ErrUnknownTransaction
| ErrUnknownVerificationMethod
| ErrNew (msg : string)
| ErrTransport
| ErrJSON
| ErrOlm.

(** [keyVerificationTransactionState] is the sync.Map from
    [userID + ":" + transactionID] to a [*verificationState]; [heap] holds
    the pointed-to records, which outlive their store entry. *)
Record OlmMachine := mkMach {
  Client_UserID : UserID;
  Client_DeviceID : DeviceID;
  account_SigningKey : SigningKey;
  DefaultSASTimeout : nat;
  keyVerificationTransactionState : gmap string loc;
  heap : gmap loc verificationState;
  effects : list Effect
}.

Definition emit (mach : OlmMachine) (e : Effect) : OlmMachine :=
  mkMach (Client_UserID mach) (Client_DeviceID mach) (account_SigningKey mach)
    (DefaultSASTimeout mach) (keyVerificationTransactionState mach) (heap mach)
    (effects mach ++ [e]).

Definition with_store (mach : OlmMachine) (st : gmap string loc) : OlmMachine :=
  mkMach (Client_UserID mach) (Client_DeviceID mach) (account_SigningKey mach)
    (DefaultSASTimeout mach) st (heap mach) (effects mach).

Definition with_heap (mach : OlmMachine) (h : gmap loc verificationState) : OlmMachine :=
  mkMach (Client_UserID mach) (Client_DeviceID mach) (account_SigningKey mach)
    (DefaultSASTimeout mach) (keyVerificationTransactionState mach) h (effects mach).

Definition mapKey (userID : UserID) (transactionID : string) : string :=
  userID +:+ ":" +:+ transactionID.

Definition Delete (mach : OlmMachine) (key : string) : OlmMachine :=
  with_store mach (delete key (keyVerificationTransactionState mach)).

(** [LoadOrStore]: the first component is [loaded]; the stored pointer,
    which no caller uses, is left out. *)
Definition LoadOrStore (mach : OlmMachine) (key : string) (p : loc) : bool * OlmMachine :=
  match keyVerificationTransactionState mach !! key with
  | Some _ => (true, mach)
  | None => (false, with_store mach (<[key := p]> (keyVerificationTransactionState mach)))
  end.

(** [&verificationState{...}]: a record at an address not in use. *)
Definition alloc (mach : OlmMachine) (v : verificationState) : loc * OlmMachine :=
  let p := fresh (dom (heap mach)) in
  (p, with_heap mach (<[p := v]> (heap mach))).

Definition write (mach : OlmMachine) (p : loc) (v : verificationState) : OlmMachine :=
  with_heap mach (<[p := v]> (heap mach)).

Definition extendTimeout (mach : OlmMachine) (p : loc) : OlmMachine :=
  emit mach (ExtendTimeout p).

End State.

(** ** Collaborators: the host, the transport and the event package *)

(** [sendFails] tells whether the transport fails on a given send. *)
Class Host {olm : Olm} := {
  sendFails : UserID -> DeviceID -> EventType -> Content -> bool;
  jsonMarshal : VerificationStartEventContent -> option string;
  CanonicalJSON : string -> option string;
  GetOrFetchDevice : UserID -> DeviceID -> option DeviceIdentity;
  AcceptVerificationFrom :
    string -> DeviceIdentity -> VerificationRequestResponse * VerificationHooks;
  SupportsKeyAgreementProtocol : VerificationStartEventContent -> string -> bool;
  SupportsHashMethod : VerificationStartEventContent -> string -> bool;
  SupportsMACMethod : VerificationStartEventContent -> string -> bool;
  SupportsSASMethod : VerificationStartEventContent -> SASMethod -> bool;
  SupportsVerificationMethod : VerificationRequestEventContent -> string -> bool;
  VerificationMethodSAS : string;
  KeyAgreementCurve25519HKDFSHA256 : string;
  VerificationHashSHA256 : string;
  HKDFHMACSHA256 : string;
  SASDecimal : SASMethod
}.

Section Engine.
Context {olm : Olm} {host : Host}.

(** ** Sending *)

(** Every function that can fail returns its error ([None] for nil)
    together with the machine it leaves behind. *)
Definition sendToOneDevice (mach : OlmMachine) (userID : UserID) (deviceID : DeviceID)
    (eventType : EventType) (content : Content) : option GoError * OlmMachine :=
  (if sendFails userID deviceID eventType content then Some ErrTransport else None,
   emit mach (SendToDevice userID deviceID eventType content)).

Definition SendSASVerificationCancel (mach : OlmMachine) (userID : UserID)
    (deviceID : DeviceID) (transactionID reason : string)
    (code : VerificationCancelCode) : option GoError * OlmMachine :=
  sendToOneDevice mach userID deviceID ToDeviceVerificationCancel
    (ContentCancel {| cancel_TransactionID := transactionID;
                      cancel_Reason := reason;
                      cancel_Code := code |}).

Definition SendSASVerificationStart (mach : OlmMachine) (toUserID : UserID)
    (toDeviceID : DeviceID) (transactionID : string)
    (methods : list VerificationMethod)
    : VerificationStartEventContent * option GoError * OlmMachine :=
  let content :=
    {| start_FromDevice := Client_DeviceID mach;
       start_TransactionID := transactionID;
       start_Method := VerificationMethodSAS;
       start_KeyAgreementProtocols := [KeyAgreementCurve25519HKDFSHA256];
       start_Hashes := [VerificationHashSHA256];
       start_MessageAuthenticationCodes := [HKDFHMACSHA256];
       start_ShortAuthenticationString := MethodType <$> methods |} in
  let '(err, mach) :=
    sendToOneDevice mach toUserID toDeviceID ToDeviceVerificationStart (ContentStart content) in
  (content, err, mach).

Definition SendSASVerificationAccept (mach : OlmMachine) (fromUser : UserID)
    (startEvent : VerificationStartEventContent) (publicKey : string)
    (methods : list VerificationMethod) : option GoError * OlmMachine :=
  if negb (String.eqb (start_Method startEvent) VerificationMethodSAS) then
    let reason := "Unknown verification method: " +:+ start_Method startEvent in
    match SendSASVerificationCancel mach fromUser (start_FromDevice startEvent)
            (start_TransactionID startEvent) reason VerificationCancelUnknownMethod with
    | (Some err, mach) => (Some err, mach)
    | (None, mach) => (Some ErrUnknownVerificationMethod, mach)
    end
  else
    match jsonMarshal startEvent with
    | None => (Some ErrJSON, mach)
    | Some payload =>
      match CanonicalJSON payload with
      | None => (Some ErrJSON, mach)
      | Some canonical =>
        let hash := Sha256 (publicKey +:+ canonical) in
        let content :=
          {| accept_TransactionID := start_TransactionID startEvent;
             accept_Method := VerificationMethodSAS;
             accept_KeyAgreementProtocol := KeyAgreementCurve25519HKDFSHA256;
             accept_Hash := VerificationHashSHA256;
             accept_MessageAuthenticationCode := HKDFHMACSHA256;
             accept_ShortAuthenticationString := MethodType <$> methods;
             accept_Commitment := hash |} in
        sendToOneDevice mach fromUser (start_FromDevice startEvent)
          ToDeviceVerificationAccept (ContentAccept content)
      end
    end.

Definition callbackAndCancelSASVerification (mach : OlmMachine)
    (verState : verificationState) (transactionID reason : string)
    (code : VerificationCancelCode) : option GoError * OlmMachine :=
  let mach := emit mach (OnCancel (hooks verState) true reason code) in
  SendSASVerificationCancel mach (UserID_ (otherDevice verState))
    (DeviceID_ (otherDevice verState)) transactionID reason code.

Definition SendSASVerificationKey (mach : OlmMachine) (userID : UserID)
    (deviceID : DeviceID) (transactionID key : string) : option GoError * OlmMachine :=
  sendToOneDevice mach userID deviceID ToDeviceVerificationKey
    (ContentKey {| key_TransactionID := transactionID; key_Key := key |}).

Definition SendSASVerificationMAC (mach : OlmMachine) (userID : UserID)
    (deviceID : DeviceID) (transactionID : string) (s : SAS)
    : option GoError * OlmMachine :=
  let keyID := NewKeyID KeyAlgorithmEd25519 (Client_DeviceID mach) in
  let signingKey := account_SigningKey mach in
  match getPKAndKeysMAC s (Client_UserID mach) (Client_DeviceID mach)
          userID deviceID transactionID signingKey keyID None with
  | None => (Some ErrOlm, mach)
  | Some (pubKeyMac, keysMac) =>
    sendToOneDevice mach userID deviceID ToDeviceVerificationMAC
      (ContentMac {| mac_TransactionID := transactionID;
                     mac_Keys := keysMac;
                     mac_Mac := Some [(keyID, pubKeyMac)] |})
  end.

(** ** Looking a transaction up *)

(** Returns the state (its address and current value) or an error.  A
    store entry always points into the heap; the dangling case only makes
    the function total. *)
Definition getTransactionState (mach : OlmMachine) (transactionID : string)
    (userID : UserID) : option (loc * verificationState) * OlmMachine :=
  match keyVerificationTransactionState mach !! mapKey userID transactionID with
  | None =>
    let '(_, mach) :=
      SendSASVerificationCancel mach userID "*" transactionID
        ("Unknown transaction: " +:+ transactionID)
        VerificationCancelUnknownTransaction in
    (None, mach)
  | Some p =>
    match heap mach !! p with
    | None => (None, mach)
    | Some verState =>
      if negb (String.eqb (UserID_ (otherDevice verState)) userID) then
        let reason :=
          "Unknown user for transaction " +:+ transactionID +:+ ": " +:+ userID in
        let '(_, mach) :=
          SendSASVerificationCancel mach userID "*" transactionID reason
            VerificationCancelUserMismatch in
        let mach := Delete mach (mapKey userID transactionID) in
        (None, mach)
      else (Some (p, verState), mach)
    end
  end.

(** ** Timers *)

Definition timeoutAfter (mach : OlmMachine) (p : loc) (transactionID : string)
    (timeout : nat) : OlmMachine :=
  emit mach (TimeoutAfter p transactionID timeout).

(** One turn of the timer goroutine's loop, entered when the timeout
    context is done; [deadlineExceeded] tells a real expiry from an
    extension. *)
Definition timeoutWake (mach : OlmMachine) (p : loc) (transactionID : string)
    (timeout : nat) (deadlineExceeded : bool) : OlmMachine :=
  match heap mach !! p with
  | None => mach
  | Some verState =>
    let key := mapKey (UserID_ (otherDevice verState)) transactionID in
    match keyVerificationTransactionState mach !! key with
    | None => mach
    | Some _ =>
      if deadlineExceeded then
        let mach := Delete mach key in
        (callbackAndCancelSASVerification mach verState transactionID
           "Timed out" VerificationCancelByTimeout).2
      else timeoutAfter mach p transactionID timeout
    end
  end.

(** ** Inbound Start *)

(** [newSAS] is the session returned by [olm.NewSAS()]. *)
Definition actuallyStartVerification (mach : OlmMachine) (userID : UserID)
    (content : VerificationStartEventContent) (otherDev : DeviceIdentity)
    (timeout : nat) (newSAS : SAS) : OlmMachine :=
  let '(resp, hks) := AcceptVerificationFrom (start_TransactionID content) otherDev in
  match resp with
  | AcceptRequest =>
    let sasMethods := commonSASMethods hks (start_ShortAuthenticationString content) in
    match sasMethods with
    | [] =>
      (SendSASVerificationCancel mach (UserID_ otherDev) (DeviceID_ otherDev)
         (start_TransactionID content) "No common SAS methods"
         VerificationCancelUnknownMethod).2
    | sasMethod0 :: _ =>
      let '(p, mach) :=
        alloc mach
          {| sas := newSAS;
             otherDevice := otherDev;
             initiatedByUs := false;
             verificationStarted := true;
             keyReceived := false;
             sasMatched := None;
             commitment := "";
             startEventCanonical := "";
             hooks := hks;
             chosenSASMethod := Some sasMethod0 |} in
      let '(loaded, mach) :=
        LoadOrStore mach (mapKey userID (start_TransactionID content)) p in
      if loaded then
        (SendSASVerificationCancel mach (UserID_ otherDev) (DeviceID_ otherDev)
           (start_TransactionID content) "Transaction already exists"
           VerificationCancelUnexpectedMessage).2
      else
        let mach := timeoutAfter mach p (start_TransactionID content) timeout in
        (SendSASVerificationAccept mach userID content (GetPubkey newSAS) sasMethods).2
    end
  | RejectRequest =>
    (SendSASVerificationCancel mach (UserID_ otherDev) (DeviceID_ otherDev)
       (start_TransactionID content) "Not accepted by user"
       VerificationCancelByUser).2
  | IgnoreRequest => mach
  end.

Definition handleVerificationStart (mach : OlmMachine) (userID : UserID)
    (content : VerificationStartEventContent) (timeout : nat) (newSAS : SAS)
    : OlmMachine :=
  match GetOrFetchDevice userID (start_FromDevice content) with
  | None => mach
  | Some otherDev =>
    let warnAndCancel (cancelReason : string) :=
      (SendSASVerificationCancel mach (UserID_ otherDev) (DeviceID_ otherDev)
         (start_TransactionID content) cancelReason
         VerificationCancelUnknownMethod).2 in
    if negb (String.eqb (start_Method content) VerificationMethodSAS) then
      warnAndCancel "Only SAS method is supported"
    else if negb (SupportsKeyAgreementProtocol content KeyAgreementCurve25519HKDFSHA256) then
      warnAndCancel "Only curve25519-hkdf-sha256 key agreement protocol is supported"
    else if negb (SupportsHashMethod content VerificationHashSHA256) then
      warnAndCancel "Only SHA256 hashing is supported"
    else if negb (SupportsMACMethod content HKDFHMACSHA256) then
      warnAndCancel "Only hkdf-hmac-sha256 MAC method is supported"
    else if negb (SupportsSASMethod content SASDecimal) then
      warnAndCancel "Decimal SAS method must be supported"
    else actuallyStartVerification mach userID content otherDev timeout newSAS
  end.

(** ** Inbound Accept *)

Definition handleVerificationAccept (mach : OlmMachine) (userID : UserID)
    (content : VerificationAcceptEventContent) : OlmMachine :=
  match getTransactionState mach (accept_TransactionID content) userID with
  | (None, mach) => mach
  | (Some (p, verState), mach) =>
    let mach := extendTimeout mach p in
    if negb (initiatedByUs verState) || verificationStarted verState then
      let mach := Delete mach (mapKey userID (accept_TransactionID content)) in
      (callbackAndCancelSASVerification mach verState (accept_TransactionID content)
         "Unexpected accept message" VerificationCancelUnexpectedMessage).2
    else
      let sasMethods :=
        commonSASMethods (hooks verState) (accept_ShortAuthenticationString content) in
      if negb (String.eqb (accept_KeyAgreementProtocol content) KeyAgreementCurve25519HKDFSHA256)
         || negb (String.eqb (accept_Hash content) VerificationHashSHA256)
         || negb (String.eqb (accept_MessageAuthenticationCode content) HKDFHMACSHA256)
         || (length sasMethods =? 0)%nat then
        let mach := Delete mach (mapKey userID (accept_TransactionID content)) in
        (callbackAndCancelSASVerification mach verState (accept_TransactionID content)
           "Verification uses unknown method" VerificationCancelUnknownMethod).2
      else
        let key := GetPubkey (sas verState) in
        let verState := set_accepted verState (accept_Commitment content) (head sasMethods) in
        let mach := write mach p verState in
        (SendSASVerificationKey mach userID (DeviceID_ (otherDevice verState))
           (accept_TransactionID content) key).2
  end.

(** ** Inbound Key *)

Definition handleVerificationKey (mach : OlmMachine) (userID : UserID)
    (content : VerificationKeyEventContent) : OlmMachine :=
  let transactionID := key_TransactionID content in
  match getTransactionState mach transactionID userID with
  | (None, mach) => mach
  | (Some (p, verState), mach) =>
    let mach := extendTimeout mach p in
    let device := otherDevice verState in
    if negb (verificationStarted verState) || keyReceived verState then
      let mach := Delete mach (mapKey userID (key_TransactionID content)) in
      (callbackAndCancelSASVerification mach verState (key_TransactionID content)
         "Unexpected key message" VerificationCancelUnexpectedMessage).2
    else
      match SetTheirKey (sas verState) (key_Key content) with
      | None => mach
      | Some sas' =>
        let verState := set_keyReceived (set_sas verState sas') true in
        let mach := write mach p verState in
        (* the rest of the handler, after the branch on initiatedByUs *)
        let compareSAS (mach : OlmMachine) : OlmMachine :=
          let '(initUserID, initDeviceID, initKey, acceptUserID, acceptDeviceID, acceptKey) :=
            if initiatedByUs verState then
              (Client_UserID mach, Client_DeviceID mach, GetPubkey (sas verState),
               UserID_ device, DeviceID_ device, key_Key content)
            else
              (UserID_ device, DeviceID_ device, key_Key content,
               Client_UserID mach, Client_DeviceID mach, GetPubkey (sas verState)) in
          match chosenSASMethod verState with
          | None => mach
          | Some sasMethod =>
            match GetVerificationSAS sasMethod initUserID initDeviceID initKey
                    acceptUserID acceptDeviceID acceptKey transactionID (sas verState) with
            | None => mach
            | Some sasData => emit mach (GoVerifySASMatch p transactionID device sasData)
            end
          end in
        if initiatedByUs verState then
          let expectedCommitment :=
            Sha256 (key_Key content +:+ startEventCanonical verState) in
          if negb (String.eqb expectedCommitment (commitment verState)) then
            let mach := Delete mach (mapKey userID transactionID) in
            (callbackAndCancelSASVerification mach verState transactionID
               "Commitment mismatch" VerificationCancelCommitmentMismatch).2
          else compareSAS mach
        else
          let key := GetPubkey (sas verState) in
          match SendSASVerificationKey mach userID (DeviceID_ device) transactionID key with
          | (Some _, mach) => mach
          | (None, mach) => compareSAS mach
          end
      end
  end.

(** The goroutine spawned by [handleVerificationKey] ends in this call,
    with [didMatch] the answer of [VerifySASMatch].  The send on the
    one-slot channel would block on a full slot; the machine is then left
    as it is. *)
Definition sasCompared (mach : OlmMachine) (didMatch : bool)
    (transactionID : string) (p : loc) : OlmMachine :=
  match heap mach !! p with
  | None => mach
  | Some verState =>
    let mach := extendTimeout mach p in
    match sasMatched verState with
    | Some _ => mach
    | None =>
      if didMatch then
        let mach := write mach p (set_sasMatched verState (Some true)) in
        (SendSASVerificationMAC mach (UserID_ (otherDevice verState))
           (DeviceID_ (otherDevice verState)) transactionID (sas verState)).2
      else
        write mach p (set_sasMatched verState (Some false))
    end
  end.

(** ** Inbound Mac *)

Definition handleVerificationMAC (mach : OlmMachine) (userID : UserID)
    (content : VerificationMacEventContent) : OlmMachine :=
  match getTransactionState mach (mac_TransactionID content) userID with
  | (None, mach) => mach
  | (Some (p, verState), mach) =>
    let mach := extendTimeout mach p in
    (* we are done with this SAS verification in all cases so we forget about it *)
    let mach := Delete mach (mapKey userID (mac_TransactionID content)) in
    if negb (verificationStarted verState) || negb (keyReceived verState) then
      (callbackAndCancelSASVerification mach verState (mac_TransactionID content)
         "Unexpected MAC message" VerificationCancelUnexpectedMessage).2
    else
      emit mach (GoAwaitSASMatched p content)
  end.

(** The goroutine spawned by [handleVerificationMAC]: it receives from
    [sasMatched] (and stays blocked while the slot is empty), then judges
    the peer's MAC. *)
Definition awaitSASMatched (mach : OlmMachine) (p : loc)
    (content : VerificationMacEventContent) : OlmMachine :=
  match heap mach !! p with
  | None => mach
  | Some verState =>
    match sasMatched verState with
    | None => mach
    | Some matched =>
      let verState := set_sasMatched verState None in
      let mach := write mach p verState in
      let device := otherDevice verState in
      if negb matched then
        (callbackAndCancelSASVerification mach verState (mac_TransactionID content)
           "SAS do not match" VerificationCancelSASMismatch).2
      else
        let keyID := NewKeyID KeyAlgorithmEd25519 (DeviceID_ device) in
        match getPKAndKeysMAC (sas verState) (UserID_ device) (DeviceID_ device)
                (Client_UserID mach) (Client_DeviceID mach) (mac_TransactionID content)
                (SigningKey_ device) keyID (mac_Mac content) with
        | None => mach
        | Some (expectedPKMAC, expectedKeysMAC) =>
          if negb (String.eqb (mac_Keys content) expectedKeysMAC) then
            (callbackAndCancelSASVerification mach verState (mac_TransactionID content)
               "Mismatched keys MACs" VerificationCancelKeyMismatch).2
          else if negb (String.eqb (mapIndex (mac_Mac content) keyID) expectedPKMAC) then
            (callbackAndCancelSASVerification mach verState (mac_TransactionID content)
               "Mismatched PK MACs" VerificationCancelKeyMismatch).2
          else
            (* we can finally trust this device *)
            let device :=
              {| UserID_ := UserID_ device; DeviceID_ := DeviceID_ device;
                 SigningKey_ := SigningKey_ device; Trust := TrustStateVerified |} in
            let mach := write mach p (set_otherDevice verState device) in
            let mach := emit mach (PutDevice (UserID_ device) device) in
            emit mach (OnSuccess (hooks verState))
        end
    end
  end.

(** ** Inbound Cancel *)

Definition handleVerificationCancel (mach : OlmMachine) (userID : UserID)
    (content : VerificationCancelEventContent) : OlmMachine :=
  let key := mapKey userID (cancel_TransactionID content) in
  let mach :=
    match keyVerificationTransactionState mach !! key with
    | Some p =>
      match heap mach !! p with
      | Some verState =>
        emit mach (OnCancel (hooks verState) false (cancel_Reason content) (cancel_Code content))
      | None => mach
      end
    | None => mach
    end in
  Delete mach key.

(** ** Starting a verification ourselves *)

(** [rnd] is [strconv.Itoa(rand.Int())] and [newSAS] is [olm.NewSAS()]. *)
Definition NewSASVerificationWith (mach : OlmMachine) (device : DeviceIdentity)
    (hks : VerificationHooks) (transactionID : string) (timeout : nat)
    (newSAS : SAS) (rnd : string) : (string + GoError) * OlmMachine :=
  let transactionID := if String.eqb transactionID "" then rnd else transactionID in
  let '(p, mach) :=
    alloc mach
      {| sas := newSAS;
         otherDevice := device;
         initiatedByUs := true;
         verificationStarted := false;
         keyReceived := false;
         sasMatched := None;
         commitment := "";
         startEventCanonical := "";
         hooks := hks;
         chosenSASMethod := None |} in
  match SendSASVerificationStart mach (UserID_ device) (DeviceID_ device)
          transactionID (VerificationMethods hks) with
  | (_, Some err, mach) => (inr err, mach)
  | (startEvent, None, mach) =>
    match jsonMarshal startEvent with
    | None => (inr ErrJSON, mach)
    | Some payload =>
      match CanonicalJSON payload with
      | None => (inr ErrJSON, mach)
      | Some canonical =>
        let mach :=
          match heap mach !! p with
          | Some verState => write mach p (set_startEventCanonical verState canonical)
          | None => mach
          end in
        let '(loaded, mach) :=
          LoadOrStore mach (mapKey (UserID_ device) transactionID) p in
        if loaded then (inr (ErrNew "Transaction already exists"), mach)
        else
          let mach := timeoutAfter mach p transactionID timeout in
          (inl transactionID, mach)
      end
    end
  end.

Definition NewSimpleSASVerificationWith (mach : OlmMachine) (device : DeviceIdentity)
    (hks : VerificationHooks) (newSAS : SAS) (rnd : string)
    : (string + GoError) * OlmMachine :=
  NewSASVerificationWith mach device hks "" (DefaultSASTimeout mach) newSAS rnd.

(** ** Inbound Request *)

Definition handleVerificationRequest (mach : OlmMachine) (userID : UserID)
    (content : VerificationRequestEventContent) (newSAS : SAS) (rnd : string)
    : OlmMachine :=
  match GetOrFetchDevice userID (request_FromDevice content) with
  | None => mach
  | Some otherDev =>
    if negb (SupportsVerificationMethod content VerificationMethodSAS) then
      (SendSASVerificationCancel mach (UserID_ otherDev) (DeviceID_ otherDev)
         (request_TransactionID content) "Only SAS method is supported"
         VerificationCancelUnknownMethod).2
    else
      let '(resp, hks) := AcceptVerificationFrom (request_TransactionID content) otherDev in
      match resp with
      | AcceptRequest =>
        (NewSASVerificationWith mach otherDev hks (request_TransactionID content)
           (DefaultSASTimeout mach) newSAS rnd).2
      | RejectRequest =>
        (SendSASVerificationCancel mach (UserID_ otherDev) (DeviceID_ otherDev)
           (request_TransactionID content) "Not accepted by user"
           VerificationCancelByUser).2
      | IgnoreRequest => mach
      end
  end.

(** ** Cancelling locally *)

Definition CancelSASVerification (mach : OlmMachine) (userID : UserID)
    (transactionID reason : string) : option GoError * OlmMachine :=
  let key := mapKey userID transactionID in
  match keyVerificationTransactionState mach !! key with
  | None => (Some ErrUnknownTransaction, mach)
  | Some p =>
    match heap mach !! p with
    | None => (Some ErrUnknownTransaction, mach)
    | Some verState =>
      let mach := Delete mach key in
      callbackAndCancelSASVerification mach verState transactionID reason
        VerificationCancelByUser
    end
  end.

(** ** The engine as a transition system *)

(** Everything that can happen to the machine: an inbound message, a call
    of the host, or a goroutine of the engine taking its turn. *)
Inductive Input :=
| InStart (userID : UserID) (content : VerificationStartEventContent)
    (timeout : nat) (newSAS : SAS)
| InAccept (userID : UserID) (content : VerificationAcceptEventContent)
| InKey (userID : UserID) (content : VerificationKeyEventContent)
| InMac (userID : UserID) (content : VerificationMacEventContent)
| InCancel (userID : UserID) (content : VerificationCancelEventContent)
| InRequest (userID : UserID) (content : VerificationRequestEventContent)
    (newSAS : SAS) (rnd : string)
| InSASCompared (didMatch : bool) (transactionID : string) (p : loc)
| InAwaitSASMatched (p : loc) (content : VerificationMacEventContent)
| InTimeoutWake (p : loc) (transactionID : string) (timeout : nat)
    (deadlineExceeded : bool)
| InNewSASVerificationWith (device : DeviceIdentity) (hks : VerificationHooks)
    (transactionID : string) (timeout : nat) (newSAS : SAS) (rnd : string)
| InCancelSASVerification (userID : UserID) (transactionID reason : string).

Definition step (mach : OlmMachine) (i : Input) : OlmMachine :=
  match i with
  | InStart userID content timeout newSAS =>
    handleVerificationStart mach userID content timeout newSAS
  | InAccept userID content => handleVerificationAccept mach userID content
  | InKey userID content => handleVerificationKey mach userID content
  | InMac userID content => handleVerificationMAC mach userID content
  | InCancel userID content => handleVerificationCancel mach userID content
  | InRequest userID content newSAS rnd =>
    handleVerificationRequest mach userID content newSAS rnd
  | InSASCompared didMatch transactionID p => sasCompared mach didMatch transactionID p
  | InAwaitSASMatched p content => awaitSASMatched mach p content
  | InTimeoutWake p transactionID timeout deadlineExceeded =>
    timeoutWake mach p transactionID timeout deadlineExceeded
  | InNewSASVerificationWith device hks transactionID timeout newSAS rnd =>
    (NewSASVerificationWith mach device hks transactionID timeout newSAS rnd).2
  | InCancelSASVerification userID transactionID reason =>
    (CancelSASVerification mach userID transactionID reason).2
  end.

Definition run (mach : OlmMachine) (inputs : list Input) : OlmMachine :=
  foldl step mach inputs.

(** ** Vocabulary of the statements *)

(** A cancellation shows as a Cancel message handed to the transport or
    as the host's [OnCancel]. *)
Definition isCancellation (e : Effect) : bool :=
  match e with
  | SendToDevice _ _ ToDeviceVerificationCancel _ => true
  | OnCancel _ _ _ _ => true
  | _ => false
  end.

(** The start event that [SendSASVerificationStart] builds and sends. *)
Definition startEventOf (mach : OlmMachine) (transactionID : string)
    (methods : list VerificationMethod) : VerificationStartEventContent :=
  (SendSASVerificationStart mach "" "" transactionID methods).1.1.

(** Every store entry points to a record.  Go gives this for free (the
    store holds pointers to live records); here it is an invariant. *)
Definition wf (mach : OlmMachine) : Prop :=
  forall key p, keyVerificationTransactionState mach !! key = Some p ->
                is_Some (heap mach !! p).

(** What the handlers keep true of every record: a started verification
    has its SAS method chosen, the peer's key is taken only after the
    start, and a transaction that the peer initiated is started from its
    creation. *)
Definition recordOK (v : verificationState) : Prop :=
  (verificationStarted v = true -> is_Some (chosenSASMethod v)) /\
  (keyReceived v = true -> verificationStarted v = true) /\
  (initiatedByUs v = false -> verificationStarted v = true).

Definition recordsOK (mach : OlmMachine) : Prop :=
  forall p v, heap mach !! p = Some v -> recordOK v.

(** The inputs that can put a transaction into the store. *)
Definition isCreation (i : Input) : bool :=
  match i with
  | InStart _ _ _ _ => true
  | InRequest _ _ _ _ => true
  | InNewSASVerificationWith _ _ _ _ _ _ => true
  | _ => false
  end.

(** The trust-store write and the success notification. *)
Definition isTrust (e : Effect) : bool :=
  match e with
  | PutDevice _ _ => true
  | OnSuccess _ => true
  | _ => false
  end.

Definition isSend (e : Effect) : bool :=
  match e with
  | SendToDevice _ _ _ _ => true
  | _ => false
  end.

(** A Cancel message to one device, as [SendSASVerificationCancel] sends it. *)
Definition cancelMessage (userID : UserID) (deviceID : DeviceID)
    (transactionID reason : string) (code : VerificationCancelCode) : Effect :=
  SendToDevice userID deviceID ToDeviceVerificationCancel
    (ContentCancel {| cancel_TransactionID := transactionID;
                      cancel_Reason := reason;
                      cancel_Code := code |}).

(** The two effects of [callbackAndCancelSASVerification]: the host learns
    of a cancellation of our own making, and the peer is sent a Cancel. *)
Definition cancelEffects (verState : verificationState)
    (transactionID reason : string) (code : VerificationCancelCode) : list Effect :=
  [ OnCancel (hooks verState) true reason code;
    cancelMessage (UserID_ (otherDevice verState)) (DeviceID_ (otherDevice verState))
      transactionID reason code ].

(** [mach'] is [mach] with the effects [new] added, the store and the
    records untouched. *)
Definition onlyEmits (mach mach' : OlmMachine) (new : list Effect) : Prop :=
  keyVerificationTransactionState mach' = keyVerificationTransactionState mach /\
  heap mach' = heap mach /\
  effects mach' = (effects mach ++ new)%list.

(** The effects that [mach'] has beyond those of [mach]. *)
Definition newEffects (mach mach' : OlmMachine) : list Effect :=
  drop (length (effects mach)) (effects mach').



(** The peer's device, marked verified. *)
Definition verified (d : DeviceIdentity) : DeviceIdentity :=
  {| UserID_ := UserID_ d; DeviceID_ := DeviceID_ d;
     SigningKey_ := SigningKey_ d; Trust := TrustStateVerified |}.

(** The transaction stored for [(userID, transactionID)], with its record. *)
Definition stored (mach : OlmMachine) (userID : UserID) (transactionID : string)
    (p : loc) (verState : verificationState) : Prop :=
  keyVerificationTransactionState mach !! mapKey userID transactionID = Some p /\
  heap mach !! p = Some verState.

End Engine.

(** ** A concrete world for examples *)

(** Transparent stand-ins for the collaborators: a session is our public
    key with the peer's key once set, a MAC or a hash spells out its
    inputs, and a method is named by its type. *)
Module Demo.

#[export] Instance olm : Olm := {|
  SAS := string * option string;
  SASData := string;
  VerificationMethod := string;
  GetPubkey := fst;
  SetTheirKey := fun s k => if String.eqb k "" then None else Some (s.1, Some k);
  CalculateMAC := fun _ input info => Some ("mac(" +:+ input +:+ "|" +:+ info +:+ ")");
  Sha256 := fun s => "sha256(" +:+ s +:+ ")";
  MethodType := fun m => m;
  GetVerificationSAS := fun m _ _ ik _ _ ak t _ => Some (m +:+ "/" +:+ ik +:+ "/" +:+ ak +:+ "/" +:+ t);
  NewKeyID := fun a n => a +:+ ":" +:+ n;
  KeyAlgorithmEd25519 := "ed25519"
|}.

Definition theHooks : VerificationHooks :=
  {| hooksID := 0; VerificationMethods := ["emoji"; "decimal"] |}.

Definition renderStart (c : VerificationStartEventContent) : string :=
  "{from:" +:+ start_FromDevice c +:+ ",txn:" +:+ start_TransactionID c +:+
  ",sas:" +:+ Join (start_ShortAuthenticationString c) "," +:+ "}".

Definition member (x : string) (l : list string) : bool :=
  existsb (String.eqb x) l.

#[export] Instance host : Host := {|
  sendFails := fun _ _ _ _ => false;
  jsonMarshal := fun c => Some (renderStart c);
  CanonicalJSON := fun payload => Some payload;
  GetOrFetchDevice := fun u d =>
    Some {| UserID_ := u; DeviceID_ := d; SigningKey_ := "ed:" +:+ d; Trust := TrustStateUnset |};
  AcceptVerificationFrom := fun _ _ => (AcceptRequest, theHooks);
  SupportsKeyAgreementProtocol := fun c x => member x (start_KeyAgreementProtocols c);
  SupportsHashMethod := fun c x => member x (start_Hashes c);
  SupportsMACMethod := fun c x => member x (start_MessageAuthenticationCodes c);
  SupportsSASMethod := fun c x => member x (start_ShortAuthenticationString c);
  SupportsVerificationMethod := fun c x => member x (request_Methods c);
  VerificationMethodSAS := "m.sas.v1";
  KeyAgreementCurve25519HKDFSHA256 := "curve25519-hkdf-sha256";
  VerificationHashSHA256 := "sha256";
  HKDFHMACSHA256 := "hkdf-hmac-sha256";
  SASDecimal := "decimal"
|}.

(** Alice's machine, with nothing in flight. *)
Definition alice : OlmMachine :=
  {| Client_UserID := "@alice:example.org";
     Client_DeviceID := "ALICEDEV";
     account_SigningKey := "ed:ALICEDEV";
     DefaultSASTimeout := 600;
     keyVerificationTransactionState := ∅;
     heap := ∅;
     effects := [] |}.

Definition bobDevice : DeviceIdentity :=
  {| UserID_ := "@bob:example.org"; DeviceID_ := "BOBDEV";
     SigningKey_ := "ed:BOBDEV"; Trust := TrustStateUnset |}.

Definition bobStart : VerificationStartEventContent :=
  {| start_FromDevice := "BOBDEV";
     start_TransactionID := "t1";
     start_Method := "m.sas.v1";
     start_KeyAgreementProtocols := ["curve25519-hkdf-sha256"];
     start_Hashes := ["sha256"];
     start_MessageAuthenticationCodes := ["hkdf-hmac-sha256"];
     start_ShortAuthenticationString := ["decimal"; "emoji"] |}.

Definition bob : UserID := "@bob:example.org".

(** Bob starts a verification with Alice and sends his key; Alice's user
    has not yet answered the SAS question. *)
Definition aliceAfterKey : OlmMachine :=
  run alice
    [InStart bob bobStart 600 ("AK", None);
     InKey bob {| key_TransactionID := "t1"; key_Key := "BK" |}].

Definition recordAfterKey : verificationState :=
  {| sas := ("AK", Some "BK"); otherDevice := bobDevice; initiatedByUs := false;
     verificationStarted := true; keyReceived := true; sasMatched := None;
     commitment := ""; startEventCanonical := ""; hooks := theHooks;
     chosenSASMethod := Some "emoji" |}.

Definition secondKey : VerificationKeyEventContent :=
  {| key_TransactionID := "t1"; key_Key := "BK2" |}.

(** The Mac message an honest Bob sends for transaction "t1". *)
Definition bobMac : VerificationMacEventContent :=
  {| mac_TransactionID := "t1";
     mac_Mac := Some [("ed25519:BOBDEV",
       "mac(ed:BOBDEV|MATRIX_KEY_VERIFICATION_MAC@bob:example.orgBOBDEV@alice:example.orgALICEDEVt1ed25519:BOBDEV)")];
     mac_Keys :=
       "mac(ed25519:BOBDEV|MATRIX_KEY_VERIFICATION_MAC@bob:example.orgBOBDEV@alice:example.orgALICEDEVt1KEY_IDS)" |}.

(** Alice has answered yes and Bob's Mac has arrived; its judgement is
    the next thing to happen. *)
Definition aliceAwaiting : OlmMachine :=
  run aliceAfterKey [InSASCompared true "t1" 0; InMac bob bobMac].

Definition recordAwaiting : verificationState :=
  {| sas := ("AK", Some "BK"); otherDevice := bobDevice; initiatedByUs := false;
     verificationStarted := true; keyReceived := true; sasMatched := Some true;
     commitment := ""; startEventCanonical := ""; hooks := theHooks;
     chosenSASMethod := Some "emoji" |}.

(** Alice starts a verification with Bob herself. *)
Definition aliceStarted : OlmMachine :=
  run alice [InNewSASVerificationWith bobDevice theHooks "t1" 600 ("AK", None) "42"].

(** An Accept for Alice's transaction, with the commitment of an honest
    Bob whose ephemeral key is "BK", or with another one. *)
Definition bobAccept (commitment : string) : VerificationAcceptEventContent :=
  {| accept_TransactionID := "t1";
     accept_Method := "m.sas.v1";
     accept_KeyAgreementProtocol := "curve25519-hkdf-sha256";
     accept_Hash := "sha256";
     accept_MessageAuthenticationCode := "hkdf-hmac-sha256";
     accept_ShortAuthenticationString := ["emoji"; "decimal"];
     accept_Commitment := commitment |}.

Definition honestCommitment : string :=
  "sha256(BK{from:ALICEDEV,txn:t1,sas:emoji,decimal})".

Definition aliceAccepted (commitment : string) : OlmMachine :=
  run aliceStarted [InAccept bob (bobAccept commitment)].

Definition recordAccepted (commitment : string) : verificationState :=
  {| sas := ("AK", None); otherDevice := bobDevice; initiatedByUs := true;
     verificationStarted := true; keyReceived := false; sasMatched := None;
     commitment := commitment;
     startEventCanonical := "{from:ALICEDEV,txn:t1,sas:emoji,decimal}";
     hooks := theHooks; chosenSASMethod := Some "emoji" |}.

Definition bobKey : VerificationKeyEventContent :=
  {| key_TransactionID := "t1"; key_Key := "BK" |}.

Definition byeCancel : VerificationCancelEventContent :=
  {| cancel_TransactionID := "t1"; cancel_Reason := "bye";
     cancel_Code := VerificationCancelByUser |}.

(** Bob's machine, for the two-sided run. *)
Definition bobMachine : OlmMachine :=
  {| Client_UserID := "@bob:example.org";
     Client_DeviceID := "BOBDEV";
     account_SigningKey := "ed:BOBDEV";
     DefaultSASTimeout := 600;
     keyVerificationTransactionState := ∅;
     heap := ∅;
     effects := [] |}.

(** The record of [aliceStarted], before any answer of Bob. *)
Definition recordStarted : verificationState :=
  {| sas := ("AK", None); otherDevice := bobDevice; initiatedByUs := true;
     verificationStarted := false; keyReceived := false; sasMatched := None;
     commitment := "";
     startEventCanonical := "{from:ALICEDEV,txn:t1,sas:emoji,decimal}";
     hooks := theHooks; chosenSASMethod := None |}.

(** Bob has started a verification with Alice; his Key has not come yet. *)
Definition aliceAfterStart : OlmMachine :=
  run alice [InStart bob bobStart 600 ("AK", None)].

Definition recordAfterStart : verificationState :=
  {| sas := ("AK", None); otherDevice := bobDevice; initiatedByUs := false;
     verificationStarted := true; keyReceived := false; sasMatched := None;
     commitment := ""; startEventCanonical := ""; hooks := theHooks;
     chosenSASMethod := Some "emoji" |}.

(** A peer whose user id ends in a port, and Alice's verification with it:
    its store key is also the key of sender "@bob:example.org" with
    transaction id "8448:t1". *)
Definition peer8448 : DeviceIdentity :=
  {| UserID_ := "@bob:example.org:8448"; DeviceID_ := "DEV";
     SigningKey_ := "ed:DEV"; Trust := TrustStateUnset |}.

Definition aliceWithPort : OlmMachine :=
  run alice [InNewSASVerificationWith peer8448 theHooks "t1" 600 ("AK", None) "42"].

Definition recordWithPort : verificationState :=
  {| sas := ("AK", None); otherDevice := peer8448; initiatedByUs := true;
     verificationStarted := false; keyReceived := false; sasMatched := None;
     commitment := "";
     startEventCanonical := "{from:ALICEDEV,txn:t1,sas:emoji,decimal}";
     hooks := theHooks; chosenSASMethod := None |}.

(** An Accept that names another hash. *)
Definition md5Accept : VerificationAcceptEventContent :=
  {| accept_TransactionID := "t1";
     accept_Method := "m.sas.v1";
     accept_KeyAgreementProtocol := "curve25519-hkdf-sha256";
     accept_Hash := "md5";
     accept_MessageAuthenticationCode := "hkdf-hmac-sha256";
     accept_ShortAuthenticationString := ["emoji"; "decimal"];
     accept_Commitment := honestCommitment |}.

(** A Key message with a key that the session refuses. *)
Definition emptyKey : VerificationKeyEventContent :=
  {| key_TransactionID := "t1"; key_Key := "" |}.

(** A start event of another method. *)
Definition qrStart : VerificationStartEventContent :=
  {| start_FromDevice := "BOBDEV";
     start_TransactionID := "t2";
     start_Method := "m.qr_code.scan.v1";
     start_KeyAgreementProtocols := [];
     start_Hashes := [];
     start_MessageAuthenticationCodes := [];
     start_ShortAuthenticationString := [] |}.

(** A host whose transport is down. *)
Definition offlineHost : Host := {|
  sendFails := fun _ _ _ _ => true;
  jsonMarshal := fun c => Some (renderStart c);
  CanonicalJSON := fun payload => Some payload;
  GetOrFetchDevice := fun u d =>
    Some {| UserID_ := u; DeviceID_ := d; SigningKey_ := "ed:" +:+ d; Trust := TrustStateUnset |};
  AcceptVerificationFrom := fun _ _ => (AcceptRequest, theHooks);
  SupportsKeyAgreementProtocol := fun c x => member x (start_KeyAgreementProtocols c);
  SupportsHashMethod := fun c x => member x (start_Hashes c);
  SupportsMACMethod := fun c x => member x (start_MessageAuthenticationCodes c);
  SupportsSASMethod := fun c x => member x (start_ShortAuthenticationString c);
  SupportsVerificationMethod := fun c x => member x (request_Methods c);
  VerificationMethodSAS := "m.sas.v1";
  KeyAgreementCurve25519HKDFSHA256 := "curve25519-hkdf-sha256";
  VerificationHashSHA256 := "sha256";
  HKDFHMACSHA256 := "hkdf-hmac-sha256";
  SASDecimal := "decimal"
|}.


End Demo.

(** * Properties *)

(** ** Strings *)

Lemma append_assoc (a b c : string) : (a +:+ b) +:+ c = a +:+ (b +:+ c).
Proof.
  induction a as [|x a IH]; [reflexivity |].
  change (String x ((a +:+ b) +:+ c) = String x (a +:+ b +:+ c)).
  now rewrite IH.
Qed.

Lemma sortStrings_Sorted (l : list string) : Sorted String.le (sortStrings l).
Proof. apply (Sorted_merge_sort String.le). Qed.

Lemma sortStrings_Permutation (l : list string) : sortStrings l ≡ₚ l.
Proof. apply merge_sort_Permutation. Qed.

(** Sorting forgets the order of its input. *)
Lemma sortStrings_perm_eq (l1 l2 : list string) :
  l1 ≡ₚ l2 -> sortStrings l1 = sortStrings l2.
Proof.
  intros Hp.
  apply (Sorted_unique String.le); try apply sortStrings_Sorted.
  now rewrite !sortStrings_Permutation.
Qed.

Section Properties.
Context {olm : Olm} {host : Host}.

(** ** The MAC calculator *)

(** C1: for sender (Us, Ds), receiver (Ur, Dr) and transaction T, the info
    string of the per-key MAC is the label followed by Us, Ds, Ur, Dr, T
    and the key id, nothing in between, and the info string of the
    key-id-list MAC is the same prefix followed by KEY_IDS. *)
Theorem getPKAndKeysMAC_info (s : SAS) (Us Ds Ur Dr T : string)
    (signingKey mainKeyID : string) (keys : option (list (KeyID * string))) :
  getPKAndKeysMAC s Us Ds Ur Dr T signingKey mainKeyID keys =
  match CalculateMAC s signingKey
          ("MATRIX_KEY_VERIFICATION_MAC" +:+ Us +:+ Ds +:+ Ur +:+ Dr +:+ T +:+ mainKeyID) with
  | None => None
  | Some pubKeyMac =>
    match CalculateMAC s (keyIDString mainKeyID keys)
            ("MATRIX_KEY_VERIFICATION_MAC" +:+ Us +:+ Ds +:+ Ur +:+ Dr +:+ T +:+ "KEY_IDS") with
    | None => None
    | Some keysMac => Some (pubKeyMac, keysMac)
    end
  end.
Proof.
  unfold getPKAndKeysMAC, sasInfo. cbv zeta.
  now rewrite !append_assoc.
Qed.

(** C10: two enumerations of key maps with the same key ids give the same
    pair of MACs; what is MACed is the key ids in ascending order joined
    with commas. *)
Theorem getPKAndKeysMAC_iteration_order (s : SAS) (Us Ds Ur Dr T : string)
    (signingKey mainKeyID : string) (keys1 keys2 : list (KeyID * string)) :
  NoDup keys1.*1 -> NoDup keys2.*1 ->
  (forall k, k ∈ keys1.*1 <-> k ∈ keys2.*1) ->
  getPKAndKeysMAC s Us Ds Ur Dr T signingKey mainKeyID (Some keys1) =
  getPKAndKeysMAC s Us Ds Ur Dr T signingKey mainKeyID (Some keys2)
  /\ exists sorted,
       Sorted String.le sorted /\ sorted ≡ₚ keys1.*1 /\
       keyIDString mainKeyID (Some keys1) = Join sorted ",".
Proof.
  intros Hnd1 Hnd2 Hsame.
  assert (Hp : keys1.*1 ≡ₚ keys2.*1) by now apply NoDup_Permutation.
  split.
  - unfold getPKAndKeysMAC, keyIDString.
    now rewrite (sortStrings_perm_eq _ _ Hp).
  - exists (sortStrings keys1.*1).
    split; [apply sortStrings_Sorted |].
    split; [apply sortStrings_Permutation | reflexivity].
Qed.

(** ** Method negotiation *)

Lemma otherSupports_elem_of (m : VerificationMethod) (other : list SASMethod) :
  otherSupports m other = true <-> MethodType m ∈ other.
Proof.
  induction other as [|o other IH]; simpl.
  - split; [discriminate | intros H; inversion H].
  - destruct (String.eqb_spec (MethodType m) o) as [->|Hne].
    + split; [intros _; left | reflexivity].
    + rewrite IH. split; [now right |].
      intros H. apply elem_of_cons in H as [H|H]; [contradiction | exact H].
Qed.

Lemma commonSASMethods_loop_filter (acc l : list VerificationMethod)
    (other : list SASMethod) :
  commonSASMethods_loop acc l other =
  (acc ++ filter (fun m => MethodType m ∈ other) l)%list.
Proof.
  revert acc. induction l as [|m l IH]; intros acc; simpl.
  - now rewrite app_nil_r.
  - destruct (otherSupports m other) eqn:E.
    + rewrite IH, filter_cons_True by now apply otherSupports_elem_of.
      now rewrite <- app_assoc.
    + rewrite IH, filter_cons_False; [reflexivity |].
      intros H. apply otherSupports_elem_of in H. congruence.
Qed.

Lemma commonSASMethods_filter (h : VerificationHooks) (other : list SASMethod) :
  commonSASMethods h other =
  filter (fun m => MethodType m ∈ other) (VerificationMethods h).
Proof. apply commonSASMethods_loop_filter. Qed.

(** ** Unknown transactions *)

(** C4: an Accept, Key or Mac message for a (sender, transaction id) with
    no stored transaction is answered by exactly one Cancel with the
    unknown-transaction code, addressed to device "*"; the store and the
    records stay as they were. *)
Theorem unknown_transaction_cancel (mach : OlmMachine) (userID transactionID : string) :
  keyVerificationTransactionState mach !! mapKey userID transactionID = None ->
  (forall content, accept_TransactionID content = transactionID ->
     onlyEmits mach (handleVerificationAccept mach userID content)
       [cancelMessage userID "*" transactionID
          ("Unknown transaction: " +:+ transactionID)
          VerificationCancelUnknownTransaction]) /\
  (forall content, key_TransactionID content = transactionID ->
     onlyEmits mach (handleVerificationKey mach userID content)
       [cancelMessage userID "*" transactionID
          ("Unknown transaction: " +:+ transactionID)
          VerificationCancelUnknownTransaction]) /\
  (forall content, mac_TransactionID content = transactionID ->
     onlyEmits mach (handleVerificationMAC mach userID content)
       [cancelMessage userID "*" transactionID
          ("Unknown transaction: " +:+ transactionID)
          VerificationCancelUnknownTransaction]).
Proof.
  intros Hnone. split; [| split]; intros content <-.
  - unfold handleVerificationAccept, getTransactionState.
    rewrite Hnone. repeat split.
  - unfold handleVerificationKey, getTransactionState. cbv zeta.
    rewrite Hnone. repeat split.
  - unfold handleVerificationMAC, getTransactionState.
    rewrite Hnone. repeat split.
Qed.

(** ** Inbound Cancel *)

(** C9: handling a Cancel deletes the store entry of (sender, transaction
    id) whatever record it points to, tells the host [OnCancel] with
    cancelledByUs = false and the received reason and code when there was
    an entry, and hands nothing to the transport. *)
Theorem handleVerificationCancel_silent (mach : OlmMachine) (userID : UserID)
    (content : VerificationCancelEventContent) :
  keyVerificationTransactionState (handleVerificationCancel mach userID content) =
    delete (mapKey userID (cancel_TransactionID content))
      (keyVerificationTransactionState mach)
  /\ heap (handleVerificationCancel mach userID content) = heap mach
  /\ (forall p verState,
        stored mach userID (cancel_TransactionID content) p verState ->
        effects (handleVerificationCancel mach userID content) =
          (effects mach ++
           [OnCancel (hooks verState) false (cancel_Reason content) (cancel_Code content)])%list)
  /\ (keyVerificationTransactionState mach !! mapKey userID (cancel_TransactionID content) = None ->
        effects (handleVerificationCancel mach userID content) = effects mach)
  /\ exists new,
       effects (handleVerificationCancel mach userID content) = (effects mach ++ new)%list /\
       Forall (fun e => isSend e = false) new.
Proof.
  unfold handleVerificationCancel, stored. cbv zeta.
  destruct (keyVerificationTransactionState mach !! _) as [p|] eqn:Hs;
    [destruct (heap mach !! p) as [v|] eqn:Hh |]; simpl.
  - repeat split; try done.
    + intros p' v' [Hp' Hv']. simplify_eq. reflexivity.
    + eexists; split; [reflexivity |]. repeat constructor.
  - repeat split; try done.
    + intros p' v' [Hp' Hv']. simplify_eq.
    + exists []. split; [now rewrite app_nil_r | constructor].
  - repeat split; try done.
    + intros p' v' [Hp' Hv']. simplify_eq.
    + exists []. split; [now rewrite app_nil_r | constructor].
Qed.

(** ** Inbound Key *)

Ltac engine_unfold :=
  unfold handleVerificationKey, handleVerificationAccept, handleVerificationMAC,
    handleVerificationCancel, handleVerificationStart, handleVerificationRequest,
    actuallyStartVerification, NewSASVerificationWith, CancelSASVerification,
    sasCompared, awaitSASMatched, timeoutWake,
    getTransactionState, callbackAndCancelSASVerification,
    SendSASVerificationAccept, SendSASVerificationStart,
    SendSASVerificationKey, SendSASVerificationCancel, SendSASVerificationMAC,
    sendToOneDevice, extendTimeout, timeoutAfter, LoadOrStore, alloc, Delete,
    write, emit, with_store, with_heap in *;
  cbv zeta.

(** Close a goal that equates two effect lists. *)
Ltac effects_eq :=
  unfold newEffects, cancelEffects, cancelMessage; simpl;
  rewrite <- ?app_assoc; simpl; try rewrite drop_app_length; reflexivity.

Lemma key_rejected (mach : OlmMachine) (userID : UserID)
    (content : VerificationKeyEventContent) (p : loc) (verState : verificationState) :
  stored mach userID (key_TransactionID content) p verState ->
  UserID_ (otherDevice verState) = userID ->
  keyReceived verState = true \/ verificationStarted verState = false ->
  keyVerificationTransactionState (handleVerificationKey mach userID content) =
    delete (mapKey userID (key_TransactionID content)) (keyVerificationTransactionState mach)
  /\ heap (handleVerificationKey mach userID content) = heap mach
  /\ effects (handleVerificationKey mach userID content) =
       (effects mach ++
        ExtendTimeout p ::
        cancelEffects verState (key_TransactionID content) "Unexpected key message"
          VerificationCancelUnexpectedMessage)%list.
Proof.
  intros [Hs Hh] Hu Hflag.
  unfold handleVerificationKey, getTransactionState. cbv zeta.
  rewrite Hs, Hh, Hu, String.eqb_refl. simpl.
  assert (negb (verificationStarted verState) || keyReceived verState = true) as ->.
  { destruct Hflag as [-> | ->]; [apply orb_true_r | reflexivity]. }
  simpl. repeat split. effects_eq.
Qed.

(** A Key message that is taken leaves the record with the peer's key in
    its session and [keyReceived] set, wherever the handler stops after
    that, as long as the transaction stays in the store. *)
Lemma key_recorded (mach : OlmMachine) (userID : UserID)
    (content : VerificationKeyEventContent) (p : loc)
    (verState : verificationState) (sas' : SAS) :
  stored mach userID (key_TransactionID content) p verState ->
  UserID_ (otherDevice verState) = userID ->
  keyReceived verState = false -> verificationStarted verState = true ->
  SetTheirKey (sas verState) (key_Key content) = Some sas' ->
  is_Some (keyVerificationTransactionState (handleVerificationKey mach userID content)
             !! mapKey userID (key_TransactionID content)) ->
  stored (handleVerificationKey mach userID content) userID (key_TransactionID content) p
    (set_keyReceived (set_sas verState sas') true).
Proof.
  intros [Hs Hh] Hu Hk Hv Hset.
  unfold stored. engine_unfold.
  rewrite Hs, Hh, Hu, String.eqb_refl. simpl.
  rewrite Hv, Hk. simpl. rewrite Hset. simpl.
  repeat (case_match; simplify_eq/=).
  all: try (intros [? HH]; rewrite lookup_delete_eq in HH; done).
  all: intros _; split; [done | apply lookup_insert_eq].
Qed.

(** C5: a Key message from the recorded peer for a transaction that has
    already taken a Key, or has not started, is answered by cancelling
    with "Unexpected key message" and the unexpected-message code; the
    store entry is deleted and the record, with the session holding the
    peer's key, is left as it was.  In particular, once a first Key has
    been taken and the transaction is still stored, a second Key for it is
    rejected this way and the session keeps the first key. *)
Theorem unexpected_key_rejected (mach : OlmMachine) (userID : UserID)
    (content : VerificationKeyEventContent) (p : loc) (verState : verificationState) :
  stored mach userID (key_TransactionID content) p verState ->
  UserID_ (otherDevice verState) = userID ->
  (keyReceived verState = true \/ verificationStarted verState = false ->
     keyVerificationTransactionState (handleVerificationKey mach userID content) =
       delete (mapKey userID (key_TransactionID content))
         (keyVerificationTransactionState mach)
     /\ heap (handleVerificationKey mach userID content) = heap mach
     /\ effects (handleVerificationKey mach userID content) =
          (effects mach ++
           ExtendTimeout p ::
           cancelEffects verState (key_TransactionID content) "Unexpected key message"
             VerificationCancelUnexpectedMessage)%list)
  /\ (forall (second : VerificationKeyEventContent) (sas' : SAS),
        key_TransactionID second = key_TransactionID content ->
        keyReceived verState = false -> verificationStarted verState = true ->
        SetTheirKey (sas verState) (key_Key content) = Some sas' ->
        is_Some (keyVerificationTransactionState (handleVerificationKey mach userID content)
                   !! mapKey userID (key_TransactionID content)) ->
        keyVerificationTransactionState
          (handleVerificationKey (handleVerificationKey mach userID content) userID second)
          !! mapKey userID (key_TransactionID content) = None
        /\ heap (handleVerificationKey (handleVerificationKey mach userID content) userID second)
             !! p = Some (set_keyReceived (set_sas verState sas') true)
        /\ newEffects (handleVerificationKey mach userID content)
             (handleVerificationKey (handleVerificationKey mach userID content) userID second) =
           ExtendTimeout p ::
           cancelEffects verState (key_TransactionID content) "Unexpected key message"
             VerificationCancelUnexpectedMessage).
Proof.
  intros Hst Hu. split.
  - intros Hflag. now apply key_rejected.
  - intros second sas' Htxn Hk Hv Hset Hstill.
    pose proof (key_recorded _ _ _ _ _ _ Hst Hu Hk Hv Hset Hstill) as Hst1.
    rewrite <- Htxn in Hst1.
    destruct (key_rejected _ _ second _ _ Hst1 Hu (or_introl eq_refl))
      as (Hstore & Hheap & Heff).
    rewrite Htxn in *. split; [| split].
    + rewrite Hstore. apply lookup_delete_eq.
    + rewrite Hheap. apply Hst1.
    + unfold newEffects. rewrite Heff, drop_app_length. reflexivity.
Qed.

(** ** Effects of a step *)

(** Every step only adds effects. *)
Lemma step_effects_grow (mach : OlmMachine) (i : Input) :
  exists new, effects (step mach i) = (effects mach ++ new)%list.
Proof.
  destruct i; unfold step; engine_unfold;
    repeat (case_match; simplify_eq/=);
    rewrite <- ?app_assoc; eauto using app_nil_r.
Qed.

Lemma newEffects_app (mach mach' : OlmMachine) (new : list Effect) :
  effects mach' = (effects mach ++ new)%list -> newEffects mach mach' = new.
Proof. intros H. unfold newEffects. now rewrite H, drop_app_length. Qed.

(** Bring the new effects of a fully unfolded step into the form of a list. *)
Ltac norm_new :=
  unfold newEffects; simpl; rewrite <- ?app_assoc;
  rewrite ?drop_app_length, ?drop_all; simpl.




(** ** Inbound Mac *)



(** ** The store invariant *)

Lemma wf_empty (mach : OlmMachine) :
  keyVerificationTransactionState mach = ∅ -> wf mach.
Proof. intros H key p. rewrite H, lookup_empty. discriminate. Qed.

Ltac dangling Hwf :=
  match goal with
  | Hs : keyVerificationTransactionState _ !! _ = Some ?n,
    Hn : heap _ !! ?n = None |- _ =>
    exfalso; destruct (Hwf _ _ Hs) as [? ?]; congruence
  end.

Lemma step_wf (mach : OlmMachine) (i : Input) : wf mach -> wf (step mach i).
Proof.
  intros Hwf. destruct i; unfold step.
  all: engine_unfold; repeat (case_match; simplify_eq/=).
  all: intros key q Hq; simpl in *.
  all: repeat match goal with
       | H : delete _ _ !! _ = Some _ |- _ => apply lookup_delete_Some in H as [? H]
       | H : <[_:=_]> _ !! _ = Some _ |- _ =>
         apply lookup_insert_Some in H as [[? ?] | [? H]]; subst
       end.
  all: rewrite ?lookup_insert_is_Some'; eauto 6.
Qed.

Lemma run_wf (mach : OlmMachine) (inputs : list Input) :
  wf mach -> wf (run mach inputs).
Proof.
  revert mach. induction inputs as [|i inputs IH]; intros mach Hwf; simpl.
  - exact Hwf.
  - apply IH. now apply step_wf.
Qed.

(** ** Leaving the store *)

Ltac find_cancellation :=
  repeat first [apply Exists_cons_hd; reflexivity | apply Exists_cons_tl].

(** An entry that a step takes out of the store goes with a cancellation,
    unless the step is the receipt of a Mac message. *)
Lemma step_removal (mach : OlmMachine) (i : Input) (key : string) :
  wf mach ->
  is_Some (keyVerificationTransactionState mach !! key) ->
  keyVerificationTransactionState (step mach i) !! key = None ->
  (exists userID content, i = InMac userID content) \/
  Exists (fun e => isCancellation e = true) (newEffects mach (step mach i)).
Proof.
  intros Hwf. destruct i; unfold step.
  4: intros _ _; left; eauto.
  all: engine_unfold; repeat (case_match; simplify_eq/=).
  all: intros [q Hq] Hnone; simpl in *.
  all: first
    [ congruence
    | dangling Hwf
    | apply lookup_insert_None in Hnone as [? ?]; congruence
    | apply lookup_delete_None in Hnone as [Heq | ?]; [rewrite Heq in * |]; congruence
    | solve [right; norm_new; find_cancellation] ].
Qed.

(** Only a creation adds an entry. *)
Lemma step_insertion (mach : OlmMachine) (i : Input) (key : string) :
  keyVerificationTransactionState mach !! key = None ->
  is_Some (keyVerificationTransactionState (step mach i) !! key) ->
  isCreation i = true.
Proof.
  destruct i; unfold step; try reflexivity.
  all: engine_unfold; repeat (case_match; simplify_eq/=).
  all: intros Hnone [q Hq]; simpl in *.
  all: first
    [ congruence
    | apply lookup_delete_Some in Hq as [? ?]; congruence ].
Qed.

(** A Mac message takes the transaction it is for out of the store. *)
Lemma mac_removes (mach : OlmMachine) (userID : UserID)
    (content : VerificationMacEventContent) (p : loc) (verState : verificationState) :
  stored mach userID (mac_TransactionID content) p verState ->
  keyVerificationTransactionState (handleVerificationMAC mach userID content)
    !! mapKey userID (mac_TransactionID content) = None.
Proof.
  intros [Hs Hh]. engine_unfold. rewrite Hs, Hh.
  repeat (case_match; simplify_eq/=); apply lookup_delete_eq.
Qed.

(** C7, as the code has it: a step takes an entry out of the store only
    together with a cancellation (a Cancel message or the host's
    [OnCancel]; the timer firing is one such step) or when it is the
    receipt of the peer's Mac message, which takes the transaction out at
    once, before its outcome is decided; and only a creation puts an entry
    in, so an entry that has left is not taken out a second time. *)
Theorem removal_with_cancel_or_on_mac (mach : OlmMachine) (i : Input) :
  wf mach ->
  (forall key,
     is_Some (keyVerificationTransactionState mach !! key) ->
     keyVerificationTransactionState (step mach i) !! key = None ->
     (exists userID content, i = InMac userID content) \/
     Exists (fun e => isCancellation e = true) (newEffects mach (step mach i)))
  /\ (forall userID content p verState,
        i = InMac userID content ->
        stored mach userID (mac_TransactionID content) p verState ->
        keyVerificationTransactionState (step mach i)
          !! mapKey userID (mac_TransactionID content) = None)
  /\ (forall key,
        keyVerificationTransactionState mach !! key = None ->
        is_Some (keyVerificationTransactionState (step mach i) !! key) ->
        isCreation i = true).
Proof.
  intros Hwf. split; [| split].
  - intros key. now apply step_removal.
  - intros userID content p verState -> Hst. simpl. eapply mac_removes, Hst.
  - intros key. apply step_insertion.
Qed.

(** ** Creating a transaction *)

Lemma fresh_not_stored (mach : OlmMachine) (q : loc) (verState : verificationState) :
  heap mach !! q = Some verState -> fresh (dom (heap mach)) ≠ q.
Proof.
  intros Hq Heq.
  apply (is_fresh (dom (heap mach))). rewrite Heq.
  apply elem_of_dom. eauto.
Qed.

(** C6, as the code has it: [LoadOrStore] lets the first of two attempts
    on a free key store its record and makes the second load it; an
    inbound Start that finds its key taken leaves the stored transaction
    alone and sends the peer a Cancel with the unexpected-message code; a
    local [NewSASVerificationWith] that finds its key taken leaves the
    stored transaction alone and returns the error "Transaction already
    exists" to its caller. *)
Theorem creation_on_taken_key :
  (forall mach key p1 p2,
     keyVerificationTransactionState mach !! key = None ->
     (LoadOrStore mach key p1).1 = false /\
     LoadOrStore (LoadOrStore mach key p1).2 key p2 = (true, (LoadOrStore mach key p1).2) /\
     keyVerificationTransactionState (LoadOrStore mach key p1).2 !! key = Some p1)
  /\ (forall mach userID content otherDev timeout newSAS hks m0 ms q verState,
        AcceptVerificationFrom (start_TransactionID content) otherDev = (AcceptRequest, hks) ->
        commonSASMethods hks (start_ShortAuthenticationString content) = m0 :: ms ->
        stored mach userID (start_TransactionID content) q verState ->
        stored (actuallyStartVerification mach userID content otherDev timeout newSAS)
          userID (start_TransactionID content) q verState /\
        keyVerificationTransactionState
          (actuallyStartVerification mach userID content otherDev timeout newSAS) =
          keyVerificationTransactionState mach /\
        newEffects mach (actuallyStartVerification mach userID content otherDev timeout newSAS) =
          [cancelMessage (UserID_ otherDev) (DeviceID_ otherDev) (start_TransactionID content)
             "Transaction already exists" VerificationCancelUnexpectedMessage])
  /\ (forall mach device hks transactionID timeout newSAS rnd payload canonical q verState,
        transactionID ≠ "" ->
        sendFails (UserID_ device) (DeviceID_ device) ToDeviceVerificationStart
          (ContentStart (startEventOf mach transactionID (VerificationMethods hks))) = false ->
        jsonMarshal (startEventOf mach transactionID (VerificationMethods hks)) = Some payload ->
        CanonicalJSON payload = Some canonical ->
        stored mach (UserID_ device) transactionID q verState ->
        (NewSASVerificationWith mach device hks transactionID timeout newSAS rnd).1 =
          inr (ErrNew "Transaction already exists") /\
        stored (NewSASVerificationWith mach device hks transactionID timeout newSAS rnd).2
          (UserID_ device) transactionID q verState /\
        keyVerificationTransactionState
          (NewSASVerificationWith mach device hks transactionID timeout newSAS rnd).2 =
          keyVerificationTransactionState mach /\
        newEffects mach (NewSASVerificationWith mach device hks transactionID timeout newSAS rnd).2 =
          [SendToDevice (UserID_ device) (DeviceID_ device) ToDeviceVerificationStart
             (ContentStart (startEventOf mach transactionID (VerificationMethods hks)))]).
Proof.
  split; [| split].
  - intros mach key p1 p2 Hnone. unfold LoadOrStore. rewrite Hnone. simpl.
    rewrite lookup_insert_eq. auto.
  - intros mach userID content otherDev timeout newSAS hks m0 ms q verState
      Hacc Hcommon [Hs Hh].
    unfold actuallyStartVerification, stored. rewrite Hacc, Hcommon.
    engine_unfold. simpl. rewrite Hs. simpl.
    repeat split; try done.
    + rewrite lookup_insert_ne; [done | now apply (fresh_not_stored _ _ verState)].
    + norm_new. reflexivity.
  - intros mach device hks transactionID timeout newSAS rnd payload canonical q verState
      Hne Hsend Hjson Hcanon [Hs Hh].
    unfold startEventOf in *. unfold stored.
    apply String.eqb_neq in Hne.
    engine_unfold. simpl in *. rewrite Hne, Hsend, Hjson, Hcanon.
    rewrite lookup_insert_eq. simpl. rewrite Hs. simpl.
    repeat split; try done.
    + rewrite !lookup_insert_ne; [done | now apply (fresh_not_stored _ _ verState) ..].
    + norm_new. reflexivity.
Qed.

(** ** Negotiated methods at work *)

(** C8: [commonSASMethods] keeps, in our order of preference, exactly our
    methods whose type the peer lists.  An expected Accept with the three
    fixed parameters right stores the first common method as the chosen
    one, and cancels with the unknown-method code when there is none; an
    accepted Start stores the first common method with the new
    transaction, and answers with a Cancel when there is none. *)
Theorem commonSASMethods_negotiation :
  (forall hks other,
     commonSASMethods hks other =
     filter (fun m => MethodType m ∈ other) (VerificationMethods hks))
  /\ (forall mach userID content p verState,
        stored mach userID (accept_TransactionID content) p verState ->
        UserID_ (otherDevice verState) = userID ->
        initiatedByUs verState = true ->
        verificationStarted verState = false ->
        accept_KeyAgreementProtocol content = KeyAgreementCurve25519HKDFSHA256 ->
        accept_Hash content = VerificationHashSHA256 ->
        accept_MessageAuthenticationCode content = HKDFHMACSHA256 ->
        match commonSASMethods (hooks verState) (accept_ShortAuthenticationString content) with
        | [] =>
          keyVerificationTransactionState (handleVerificationAccept mach userID content) =
            delete (mapKey userID (accept_TransactionID content))
              (keyVerificationTransactionState mach) /\
          newEffects mach (handleVerificationAccept mach userID content) =
            ExtendTimeout p ::
            cancelEffects verState (accept_TransactionID content)
              "Verification uses unknown method" VerificationCancelUnknownMethod
        | m0 :: _ =>
          stored (handleVerificationAccept mach userID content) userID
            (accept_TransactionID content) p
            (set_accepted verState (accept_Commitment content) (Some m0))
        end)
  /\ (forall mach userID content otherDev timeout newSAS hks,
        AcceptVerificationFrom (start_TransactionID content) otherDev = (AcceptRequest, hks) ->
        match commonSASMethods hks (start_ShortAuthenticationString content) with
        | [] =>
          onlyEmits mach (actuallyStartVerification mach userID content otherDev timeout newSAS)
            [cancelMessage (UserID_ otherDev) (DeviceID_ otherDev) (start_TransactionID content)
               "No common SAS methods" VerificationCancelUnknownMethod]
        | m0 :: _ =>
          keyVerificationTransactionState mach
            !! mapKey userID (start_TransactionID content) = None ->
          stored (actuallyStartVerification mach userID content otherDev timeout newSAS)
            userID (start_TransactionID content) (fresh (dom (heap mach)))
            {| sas := newSAS; otherDevice := otherDev; initiatedByUs := false;
               verificationStarted := true; keyReceived := false; sasMatched := None;
               commitment := ""; startEventCanonical := ""; hooks := hks;
               chosenSASMethod := Some m0 |}
        end).
Proof.
  split; [exact commonSASMethods_filter | split].
  - intros mach userID content p verState [Hs Hh] Hu Hi Hv Hk Hhash Hmac.
    unfold handleVerificationAccept, getTransactionState, stored.
    rewrite Hs, Hh, Hu, String.eqb_refl. simpl.
    rewrite Hi, Hv, Hk, Hhash, Hmac, !String.eqb_refl. simpl.
    destruct (commonSASMethods _ _) as [|m0 ms]; simpl.
    + split; [reflexivity |]. engine_unfold. norm_new. reflexivity.
    + split; [exact Hs | apply lookup_insert_eq].
  - intros mach userID content otherDev timeout newSAS hks Hacc.
    unfold actuallyStartVerification. rewrite Hacc.
    destruct (commonSASMethods _ _) as [|m0 ms].
    + repeat split.
    + intros Hfree. unfold stored. engine_unfold. simpl. rewrite Hfree.
      repeat (case_match; simplify_eq/=); rewrite !lookup_insert_eq; done.
Qed.

(** ** The commitment *)

(** C2: the responder's Accept carries Sha256 of its own ephemeral public
    key followed directly by the canonical JSON of the start event; the
    initiator keeps the canonical JSON of the start event it sent; and on
    the peer's Key the initiator hashes the received key followed directly
    by that payload and compares with the commitment stored from the
    Accept: when they differ the store entry is deleted and the
    transaction cancelled with the commitment-mismatch code, when they
    agree the transaction stays and nothing is cancelled. *)
Theorem commitment_made_and_checked :
  (forall mach userID content otherDev timeout newSAS hks m0 ms payload canonical,
     AcceptVerificationFrom (start_TransactionID content) otherDev = (AcceptRequest, hks) ->
     commonSASMethods hks (start_ShortAuthenticationString content) = m0 :: ms ->
     keyVerificationTransactionState mach
       !! mapKey userID (start_TransactionID content) = None ->
     start_Method content = VerificationMethodSAS ->
     jsonMarshal content = Some payload ->
     CanonicalJSON payload = Some canonical ->
     newEffects mach (actuallyStartVerification mach userID content otherDev timeout newSAS) =
       [TimeoutAfter (fresh (dom (heap mach))) (start_TransactionID content) timeout;
        SendToDevice userID (start_FromDevice content) ToDeviceVerificationAccept
          (ContentAccept
             {| accept_TransactionID := start_TransactionID content;
                accept_Method := VerificationMethodSAS;
                accept_KeyAgreementProtocol := KeyAgreementCurve25519HKDFSHA256;
                accept_Hash := VerificationHashSHA256;
                accept_MessageAuthenticationCode := HKDFHMACSHA256;
                accept_ShortAuthenticationString := MethodType <$> (m0 :: ms);
                accept_Commitment := Sha256 (GetPubkey newSAS +:+ canonical) |})])
  /\ (forall mach device hks transactionID timeout newSAS rnd payload canonical,
        transactionID ≠ "" ->
        sendFails (UserID_ device) (DeviceID_ device) ToDeviceVerificationStart
          (ContentStart (startEventOf mach transactionID (VerificationMethods hks))) = false ->
        jsonMarshal (startEventOf mach transactionID (VerificationMethods hks)) = Some payload ->
        CanonicalJSON payload = Some canonical ->
        keyVerificationTransactionState mach !! mapKey (UserID_ device) transactionID = None ->
        (NewSASVerificationWith mach device hks transactionID timeout newSAS rnd).1 =
          inl transactionID /\
        stored (NewSASVerificationWith mach device hks transactionID timeout newSAS rnd).2
          (UserID_ device) transactionID (fresh (dom (heap mach)))
          {| sas := newSAS; otherDevice := device; initiatedByUs := true;
             verificationStarted := false; keyReceived := false; sasMatched := None;
             commitment := ""; startEventCanonical := canonical; hooks := hks;
             chosenSASMethod := None |})
  /\ (forall mach userID content p verState sas',
        stored mach userID (key_TransactionID content) p verState ->
        UserID_ (otherDevice verState) = userID ->
        verificationStarted verState = true ->
        keyReceived verState = false ->
        initiatedByUs verState = true ->
        SetTheirKey (sas verState) (key_Key content) = Some sas' ->
        (Sha256 (key_Key content +:+ startEventCanonical verState) ≠ commitment verState ->
           keyVerificationTransactionState (handleVerificationKey mach userID content) =
             delete (mapKey userID (key_TransactionID content))
               (keyVerificationTransactionState mach) /\
           newEffects mach (handleVerificationKey mach userID content) =
             ExtendTimeout p ::
             cancelEffects verState (key_TransactionID content) "Commitment mismatch"
               VerificationCancelCommitmentMismatch)
        /\ (Sha256 (key_Key content +:+ startEventCanonical verState) = commitment verState ->
            keyVerificationTransactionState (handleVerificationKey mach userID content) =
              keyVerificationTransactionState mach /\
            Forall (fun e => isCancellation e = false)
              (newEffects mach (handleVerificationKey mach userID content)))).
Proof.
  split; [| split].
  - intros mach userID content otherDev timeout newSAS hks m0 ms payload canonical
      Hacc Hcommon Hfree Hmeth Hjson Hcanon.
    unfold actuallyStartVerification. rewrite Hacc, Hcommon.
    engine_unfold. simpl. rewrite Hfree. simpl.
    rewrite Hmeth, String.eqb_refl, Hjson, Hcanon. simpl.
    norm_new. reflexivity.
  - intros mach device hks transactionID timeout newSAS rnd payload canonical
      Hne Hsend Hjson Hcanon Hfree.
    unfold startEventOf in *. unfold stored.
    apply String.eqb_neq in Hne.
    engine_unfold. simpl in *. rewrite Hne, Hsend, Hjson, Hcanon.
    rewrite lookup_insert_eq. simpl. rewrite Hfree. simpl.
    rewrite !lookup_insert_eq. auto.
  - intros mach userID content p verState sas' [Hs Hh] Hu Hv Hk Hi Hset.
    unfold handleVerificationKey, getTransactionState. cbv zeta.
    rewrite Hs, Hh, Hu, String.eqb_refl. simpl.
    rewrite Hv, Hk. simpl. rewrite Hset. simpl. rewrite Hi.
    split.
    + intros Hne. apply String.eqb_neq in Hne. rewrite Hne. simpl.
      split; [reflexivity |]. engine_unfold. norm_new. reflexivity.
    + intros Heq. rewrite Heq, String.eqb_refl. simpl.
      repeat (case_match; simplify_eq/=).
      all: split; [reflexivity |]; engine_unfold; norm_new; repeat constructor.
Qed.

(** * Further properties of the handlers *)

(** ** Messages from somebody else *)

(** X1: an Accept, Key or Mac message whose sender is not the peer user
    recorded for the stored transaction is answered by one Cancel with the
    user-mismatch code to device "*"; the store entry is deleted, the
    record is left as it was, the timer is not extended and the host is
    not told. *)
Theorem user_mismatch_cancelled (mach : OlmMachine) (userID transactionID : string)
    (p : loc) (verState : verificationState) :
  stored mach userID transactionID p verState ->
  UserID_ (otherDevice verState) ≠ userID ->
  forall i,
    (exists content, i = InAccept userID content /\ accept_TransactionID content = transactionID) \/
    (exists content, i = InKey userID content /\ key_TransactionID content = transactionID) \/
    (exists content, i = InMac userID content /\ mac_TransactionID content = transactionID) ->
    keyVerificationTransactionState (step mach i) =
      delete (mapKey userID transactionID) (keyVerificationTransactionState mach)
    /\ heap (step mach i) = heap mach
    /\ newEffects mach (step mach i) =
         [cancelMessage userID "*" transactionID
            ("Unknown user for transaction " +:+ transactionID +:+ ": " +:+ userID)
            VerificationCancelUserMismatch].
Proof.
  intros [Hs Hh] Hne i Hi.
  apply String.eqb_neq in Hne.
  destruct Hi as [(c & -> & <-) | [(c & -> & <-) | (c & -> & <-)]]; unfold step.
  - unfold handleVerificationAccept, getTransactionState.
    rewrite Hs, Hh, Hne. simpl. repeat split. engine_unfold. norm_new. reflexivity.
  - unfold handleVerificationKey, getTransactionState. cbv zeta.
    rewrite Hs, Hh, Hne. simpl. repeat split. engine_unfold. norm_new. reflexivity.
  - unfold handleVerificationMAC, getTransactionState.
    rewrite Hs, Hh, Hne. simpl. repeat split. engine_unfold. norm_new. reflexivity.
Qed.

(** ** Inbound Accept, the other ways *)

Lemma accept_rejected (mach : OlmMachine) (userID : UserID)
    (content : VerificationAcceptEventContent) (p : loc) (verState : verificationState) :
  stored mach userID (accept_TransactionID content) p verState ->
  UserID_ (otherDevice verState) = userID ->
  initiatedByUs verState = false \/ verificationStarted verState = true ->
  keyVerificationTransactionState (handleVerificationAccept mach userID content) =
    delete (mapKey userID (accept_TransactionID content))
      (keyVerificationTransactionState mach)
  /\ heap (handleVerificationAccept mach userID content) = heap mach
  /\ newEffects mach (handleVerificationAccept mach userID content) =
       ExtendTimeout p ::
       cancelEffects verState (accept_TransactionID content) "Unexpected accept message"
         VerificationCancelUnexpectedMessage.
Proof.
  intros [Hs Hh] Hu Hflag.
  unfold handleVerificationAccept, getTransactionState.
  rewrite Hs, Hh, Hu, String.eqb_refl. simpl.
  assert (negb (initiatedByUs verState) || verificationStarted verState = true) as ->.
  { destruct Hflag as [-> | ->]; [reflexivity | apply orb_true_r]. }
  repeat split. engine_unfold. norm_new. reflexivity.
Qed.

(** X2: an Accept for a transaction that the peer started, or that has
    already been accepted, deletes the store entry and cancels with
    "Unexpected accept message" and the unexpected-message code; the
    record is left as it was. *)
Theorem unexpected_accept_rejected (mach : OlmMachine) (userID : UserID)
    (content : VerificationAcceptEventContent) (p : loc) (verState : verificationState) :
  stored mach userID (accept_TransactionID content) p verState ->
  UserID_ (otherDevice verState) = userID ->
  initiatedByUs verState = false \/ verificationStarted verState = true ->
  keyVerificationTransactionState (handleVerificationAccept mach userID content) =
    delete (mapKey userID (accept_TransactionID content))
      (keyVerificationTransactionState mach)
  /\ heap (handleVerificationAccept mach userID content) = heap mach
  /\ newEffects mach (handleVerificationAccept mach userID content) =
       ExtendTimeout p ::
       cancelEffects verState (accept_TransactionID content) "Unexpected accept message"
         VerificationCancelUnexpectedMessage.
Proof. apply accept_rejected. Qed.

(** X3: an expected Accept that names another key agreement protocol,
    hash or MAC method than the fixed ones deletes the store entry and
    cancels with "Verification uses unknown method" and the unknown-method
    code, whatever SAS methods it lists; the record is left as it was. *)
Theorem accept_with_unknown_parameter (mach : OlmMachine) (userID : UserID)
    (content : VerificationAcceptEventContent) (p : loc) (verState : verificationState) :
  stored mach userID (accept_TransactionID content) p verState ->
  UserID_ (otherDevice verState) = userID ->
  initiatedByUs verState = true ->
  verificationStarted verState = false ->
  accept_KeyAgreementProtocol content ≠ KeyAgreementCurve25519HKDFSHA256 \/
  accept_Hash content ≠ VerificationHashSHA256 \/
  accept_MessageAuthenticationCode content ≠ HKDFHMACSHA256 ->
  keyVerificationTransactionState (handleVerificationAccept mach userID content) =
    delete (mapKey userID (accept_TransactionID content))
      (keyVerificationTransactionState mach)
  /\ heap (handleVerificationAccept mach userID content) = heap mach
  /\ newEffects mach (handleVerificationAccept mach userID content) =
       ExtendTimeout p ::
       cancelEffects verState (accept_TransactionID content)
         "Verification uses unknown method" VerificationCancelUnknownMethod.
Proof.
  intros [Hs Hh] Hu Hi Hv Hbad.
  unfold handleVerificationAccept, getTransactionState.
  rewrite Hs, Hh, Hu, String.eqb_refl. simpl. rewrite Hi, Hv. simpl.
  match goal with
  | |- context [if ?c then _ else _] => assert (c = true) as ->
  end.
  { destruct Hbad as [H | [H | H]]; apply String.eqb_neq in H; rewrite H; simpl;
      rewrite ?orb_true_r; reflexivity. }
  repeat split. engine_unfold. norm_new. reflexivity.
Qed.

Lemma accept_taken (mach : OlmMachine) (userID : UserID)
    (content : VerificationAcceptEventContent) (p : loc) (verState : verificationState)
    (m0 : VerificationMethod) (ms : list VerificationMethod) :
  stored mach userID (accept_TransactionID content) p verState ->
  UserID_ (otherDevice verState) = userID ->
  initiatedByUs verState = true ->
  verificationStarted verState = false ->
  accept_KeyAgreementProtocol content = KeyAgreementCurve25519HKDFSHA256 ->
  accept_Hash content = VerificationHashSHA256 ->
  accept_MessageAuthenticationCode content = HKDFHMACSHA256 ->
  commonSASMethods (hooks verState) (accept_ShortAuthenticationString content) = m0 :: ms ->
  stored (handleVerificationAccept mach userID content) userID
    (accept_TransactionID content) p
    (set_accepted verState (accept_Commitment content) (Some m0))
  /\ newEffects mach (handleVerificationAccept mach userID content) =
       [ExtendTimeout p;
        SendToDevice userID (DeviceID_ (otherDevice verState)) ToDeviceVerificationKey
          (ContentKey {| key_TransactionID := accept_TransactionID content;
                         key_Key := GetPubkey (sas verState) |})].
Proof.
  intros [Hs Hh] Hu Hi Hv Hk Hhash Hmac Hcommon.
  unfold handleVerificationAccept, getTransactionState, stored.
  rewrite Hs, Hh, Hu, String.eqb_refl. simpl.
  rewrite Hi, Hv, Hk, Hhash, Hmac, !String.eqb_refl, Hcommon. simpl.
  split; [split; [exact Hs | apply lookup_insert_eq] |].
  engine_unfold. norm_new. reflexivity.
Qed.

(** X4: an expected Accept with the fixed parameters and a common SAS
    method is answered by our Key message, carrying our public key, to
    the recorded peer device; a second Accept for the same transaction is
    then rejected with "Unexpected accept message" and the transaction
    deleted. *)
Theorem accept_once (mach : OlmMachine) (userID : UserID)
    (content again : VerificationAcceptEventContent) (p : loc)
    (verState : verificationState)
    (m0 : VerificationMethod) (ms : list VerificationMethod) :
  stored mach userID (accept_TransactionID content) p verState ->
  UserID_ (otherDevice verState) = userID ->
  initiatedByUs verState = true ->
  verificationStarted verState = false ->
  accept_KeyAgreementProtocol content = KeyAgreementCurve25519HKDFSHA256 ->
  accept_Hash content = VerificationHashSHA256 ->
  accept_MessageAuthenticationCode content = HKDFHMACSHA256 ->
  commonSASMethods (hooks verState) (accept_ShortAuthenticationString content) = m0 :: ms ->
  accept_TransactionID again = accept_TransactionID content ->
  newEffects mach (handleVerificationAccept mach userID content) =
    [ExtendTimeout p;
     SendToDevice userID (DeviceID_ (otherDevice verState)) ToDeviceVerificationKey
       (ContentKey {| key_TransactionID := accept_TransactionID content;
                      key_Key := GetPubkey (sas verState) |})]
  /\ keyVerificationTransactionState
       (handleVerificationAccept (handleVerificationAccept mach userID content) userID again)
       !! mapKey userID (accept_TransactionID content) = None
  /\ newEffects (handleVerificationAccept mach userID content)
       (handleVerificationAccept (handleVerificationAccept mach userID content) userID again) =
       ExtendTimeout p ::
       cancelEffects verState (accept_TransactionID content) "Unexpected accept message"
         VerificationCancelUnexpectedMessage.
Proof.
  intros Hst Hu Hi Hv Hk Hhash Hmac Hcommon Htxn.
  destruct (accept_taken _ _ _ _ _ _ _ Hst Hu Hi Hv Hk Hhash Hmac Hcommon) as [Hst1 Heff].
  split; [exact Heff |].
  rewrite <- Htxn in Hst1.
  destruct (accept_rejected _ _ again _ _ Hst1 Hu (or_intror eq_refl))
    as (Hstore & _ & Heff2).
  rewrite Htxn in *. split.
  - rewrite Hstore. apply lookup_delete_eq.
  - exact Heff2.
Qed.

(** ** Inbound Key, the other ways *)

(** X5: when olm refuses the peer's key, an expected Key message only
    extends the timer: the store, the record and its flags stay as they
    were, nothing is sent and nothing is cancelled. *)
Theorem key_refused_by_olm (mach : OlmMachine) (userID : UserID)
    (content : VerificationKeyEventContent) (p : loc) (verState : verificationState) :
  stored mach userID (key_TransactionID content) p verState ->
  UserID_ (otherDevice verState) = userID ->
  verificationStarted verState = true ->
  keyReceived verState = false ->
  SetTheirKey (sas verState) (key_Key content) = None ->
  onlyEmits mach (handleVerificationKey mach userID content) [ExtendTimeout p].
Proof.
  intros [Hs Hh] Hu Hv Hk Hset.
  unfold handleVerificationKey, getTransactionState. cbv zeta.
  rewrite Hs, Hh, Hu, String.eqb_refl. simpl.
  rewrite Hv, Hk. simpl. rewrite Hset. repeat split.
Qed.

(** ** Inbound Mac, the other way *)

(** X6: a Mac message for a transaction that has not started or has not
    taken the peer's Key deletes the store entry and cancels with
    "Unexpected MAC message" and the unexpected-message code; no judgement
    is left waiting and the record is left as it was. *)
Theorem unexpected_mac_rejected (mach : OlmMachine) (userID : UserID)
    (content : VerificationMacEventContent) (p : loc) (verState : verificationState) :
  stored mach userID (mac_TransactionID content) p verState ->
  UserID_ (otherDevice verState) = userID ->
  verificationStarted verState = false \/ keyReceived verState = false ->
  keyVerificationTransactionState (handleVerificationMAC mach userID content) =
    delete (mapKey userID (mac_TransactionID content))
      (keyVerificationTransactionState mach)
  /\ heap (handleVerificationMAC mach userID content) = heap mach
  /\ newEffects mach (handleVerificationMAC mach userID content) =
       ExtendTimeout p ::
       cancelEffects verState (mac_TransactionID content) "Unexpected MAC message"
         VerificationCancelUnexpectedMessage.
Proof.
  intros [Hs Hh] Hu Hflag.
  unfold handleVerificationMAC, getTransactionState.
  rewrite Hs, Hh, Hu, String.eqb_refl. simpl.
  assert (negb (verificationStarted verState) || negb (keyReceived verState) = true) as ->.
  { destruct Hflag as [-> | ->]; [reflexivity | apply orb_true_r]. }
  repeat split. engine_unfold. norm_new. reflexivity.
Qed.

(** ** Inbound Start and Request before a transaction exists *)

(** X7: a Start from a device that cannot be fetched is dropped without
    any effect; a Start that is not SAS, or lacks the fixed key agreement
    protocol, hash or MAC method, or the decimal SAS, is answered by
    exactly one Cancel with the unknown-method code to the fetched device
    and creates nothing; a Start that passes goes on to the host's
    decision. *)
Theorem start_checks (mach : OlmMachine) (userID : UserID)
    (content : VerificationStartEventContent) (timeout : nat) (newSAS : SAS) :
  (GetOrFetchDevice userID (start_FromDevice content) = None ->
     handleVerificationStart mach userID content timeout newSAS = mach)
  /\ (forall otherDev,
        GetOrFetchDevice userID (start_FromDevice content) = Some otherDev ->
        start_Method content ≠ VerificationMethodSAS \/
        SupportsKeyAgreementProtocol content KeyAgreementCurve25519HKDFSHA256 = false \/
        SupportsHashMethod content VerificationHashSHA256 = false \/
        SupportsMACMethod content HKDFHMACSHA256 = false \/
        SupportsSASMethod content SASDecimal = false ->
        exists reason,
          onlyEmits mach (handleVerificationStart mach userID content timeout newSAS)
            [cancelMessage (UserID_ otherDev) (DeviceID_ otherDev)
               (start_TransactionID content) reason VerificationCancelUnknownMethod])
  /\ (forall otherDev,
        GetOrFetchDevice userID (start_FromDevice content) = Some otherDev ->
        start_Method content = VerificationMethodSAS ->
        SupportsKeyAgreementProtocol content KeyAgreementCurve25519HKDFSHA256 = true ->
        SupportsHashMethod content VerificationHashSHA256 = true ->
        SupportsMACMethod content HKDFHMACSHA256 = true ->
        SupportsSASMethod content SASDecimal = true ->
        handleVerificationStart mach userID content timeout newSAS =
        actuallyStartVerification mach userID content otherDev timeout newSAS).
Proof.
  unfold handleVerificationStart. split; [| split].
  - intros ->. reflexivity.
  - intros otherDev -> Hbad. cbv zeta.
    repeat case_match; try (eexists; repeat split; fail).
    exfalso. destruct Hbad as [Hb | [Hb | [Hb | [Hb | Hb]]]].
    + apply String.eqb_neq in Hb. destruct (String.eqb _ _); simpl in *; congruence.
    + rewrite Hb in *. discriminate.
    + rewrite Hb in *. discriminate.
    + rewrite Hb in *. discriminate.
    + rewrite Hb in *. discriminate.
  - intros otherDev -> -> -> -> -> ->. cbv zeta.
    rewrite String.eqb_refl. reflexivity.
Qed.

(** X8: when the host rejects, an inbound Start, and likewise a Request
    that supports SAS, is answered by one Cancel "Not accepted by user"
    with the user code to the fetched device; when the host ignores,
    nothing happens at all.  No transaction is created either way. *)
Theorem host_rejects_or_ignores (mach : OlmMachine) (userID : UserID)
    (otherDev : DeviceIdentity) (hks : VerificationHooks) :
  (forall content timeout newSAS,
     AcceptVerificationFrom (start_TransactionID content) otherDev = (RejectRequest, hks) ->
     onlyEmits mach (actuallyStartVerification mach userID content otherDev timeout newSAS)
       [cancelMessage (UserID_ otherDev) (DeviceID_ otherDev) (start_TransactionID content)
          "Not accepted by user" VerificationCancelByUser])
  /\ (forall content timeout newSAS,
        AcceptVerificationFrom (start_TransactionID content) otherDev = (IgnoreRequest, hks) ->
        actuallyStartVerification mach userID content otherDev timeout newSAS = mach)
  /\ (forall content newSAS rnd,
        GetOrFetchDevice userID (request_FromDevice content) = Some otherDev ->
        SupportsVerificationMethod content VerificationMethodSAS = true ->
        AcceptVerificationFrom (request_TransactionID content) otherDev = (RejectRequest, hks) ->
        onlyEmits mach (handleVerificationRequest mach userID content newSAS rnd)
          [cancelMessage (UserID_ otherDev) (DeviceID_ otherDev) (request_TransactionID content)
             "Not accepted by user" VerificationCancelByUser])
  /\ (forall content newSAS rnd,
        GetOrFetchDevice userID (request_FromDevice content) = Some otherDev ->
        SupportsVerificationMethod content VerificationMethodSAS = true ->
        AcceptVerificationFrom (request_TransactionID content) otherDev = (IgnoreRequest, hks) ->
        handleVerificationRequest mach userID content newSAS rnd = mach).
Proof.
  split; [| split; [| split]].
  - intros content timeout newSAS Hr.
    unfold actuallyStartVerification. rewrite Hr. repeat split.
  - intros content timeout newSAS Hr.
    unfold actuallyStartVerification. rewrite Hr. reflexivity.
  - intros content newSAS rnd Hd Hsup Hr.
    unfold handleVerificationRequest. rewrite Hd, Hsup, Hr. repeat split.
  - intros content newSAS rnd Hd Hsup Hr.
    unfold handleVerificationRequest. rewrite Hd, Hsup, Hr. reflexivity.
Qed.

(** X9: a Request from a device that cannot be fetched is dropped; a
    Request that does not list SAS is answered by one Cancel "Only SAS
    method is supported" with the unknown-method code and the host is not
    asked; a Request that the host accepts starts a verification of our
    own with the requesting device, under the request's transaction id and
    the default timeout. *)
Theorem request_handling (mach : OlmMachine) (userID : UserID)
    (content : VerificationRequestEventContent) (newSAS : SAS) (rnd : string) :
  (GetOrFetchDevice userID (request_FromDevice content) = None ->
     handleVerificationRequest mach userID content newSAS rnd = mach)
  /\ (forall otherDev,
        GetOrFetchDevice userID (request_FromDevice content) = Some otherDev ->
        SupportsVerificationMethod content VerificationMethodSAS = false ->
        onlyEmits mach (handleVerificationRequest mach userID content newSAS rnd)
          [cancelMessage (UserID_ otherDev) (DeviceID_ otherDev) (request_TransactionID content)
             "Only SAS method is supported" VerificationCancelUnknownMethod])
  /\ (forall otherDev hks,
        GetOrFetchDevice userID (request_FromDevice content) = Some otherDev ->
        SupportsVerificationMethod content VerificationMethodSAS = true ->
        AcceptVerificationFrom (request_TransactionID content) otherDev = (AcceptRequest, hks) ->
        handleVerificationRequest mach userID content newSAS rnd =
        (NewSASVerificationWith mach otherDev hks (request_TransactionID content)
           (DefaultSASTimeout mach) newSAS rnd).2).
Proof.
  unfold handleVerificationRequest. split; [| split].
  - intros ->. reflexivity.
  - intros otherDev -> ->. repeat split.
  - intros otherDev hks -> -> ->. reflexivity.
Qed.

(** ** Cancelling locally *)

(** X10: cancelling an unknown transaction returns the unknown-transaction
    error and does nothing; cancelling a stored one deletes the entry,
    tells the host [OnCancel] with cancelledByUs = true and sends the
    recorded peer device a Cancel with the given reason and the user
    code; cancelling it a second time is then an unknown transaction. *)
Theorem CancelSASVerification_once (mach : OlmMachine) (userID : UserID)
    (transactionID reason : string) :
  (keyVerificationTransactionState mach !! mapKey userID transactionID = None ->
     CancelSASVerification mach userID transactionID reason =
       (Some ErrUnknownTransaction, mach))
  /\ (forall p verState,
        stored mach userID transactionID p verState ->
        keyVerificationTransactionState
          (CancelSASVerification mach userID transactionID reason).2 =
          delete (mapKey userID transactionID) (keyVerificationTransactionState mach)
        /\ heap (CancelSASVerification mach userID transactionID reason).2 = heap mach
        /\ newEffects mach (CancelSASVerification mach userID transactionID reason).2 =
             cancelEffects verState transactionID reason VerificationCancelByUser
        /\ forall again,
             CancelSASVerification
               (CancelSASVerification mach userID transactionID reason).2
               userID transactionID again =
             (Some ErrUnknownTransaction,
              (CancelSASVerification mach userID transactionID reason).2)).
Proof.
  unfold CancelSASVerification. split.
  - intros ->. reflexivity.
  - intros p verState [Hs Hh]. cbv zeta. rewrite Hs, Hh.
    repeat split.
    + engine_unfold. norm_new. reflexivity.
    + intros again. engine_unfold. simpl. rewrite lookup_delete_eq. reflexivity.
Qed.

(** ** The timer *)

(** X11: when the timer goroutine of a transaction wakes and no entry is
    stored under the transaction's key, it ends without any effect; when
    the deadline has passed, it deletes the entry and cancels with "Timed
    out" and the timeout code, and any later wake-up does nothing; when it
    was only extended, it arms the timer anew and leaves the store
    alone. *)
Theorem timeout_fires_once (mach : OlmMachine) (p : loc) (verState : verificationState)
    (transactionID : string) (timeout : nat) :
  heap mach !! p = Some verState ->
  (keyVerificationTransactionState mach
     !! mapKey (UserID_ (otherDevice verState)) transactionID = None ->
   forall deadlineExceeded,
     timeoutWake mach p transactionID timeout deadlineExceeded = mach)
  /\ (is_Some (keyVerificationTransactionState mach
                 !! mapKey (UserID_ (otherDevice verState)) transactionID) ->
      keyVerificationTransactionState (timeoutWake mach p transactionID timeout true) =
        delete (mapKey (UserID_ (otherDevice verState)) transactionID)
          (keyVerificationTransactionState mach)
      /\ heap (timeoutWake mach p transactionID timeout true) = heap mach
      /\ newEffects mach (timeoutWake mach p transactionID timeout true) =
           cancelEffects verState transactionID "Timed out" VerificationCancelByTimeout
      /\ (forall deadlineExceeded,
            timeoutWake (timeoutWake mach p transactionID timeout true)
              p transactionID timeout deadlineExceeded =
            timeoutWake mach p transactionID timeout true)
      /\ onlyEmits mach (timeoutWake mach p transactionID timeout false)
           [TimeoutAfter p transactionID timeout]).
Proof.
  intros Hh. unfold timeoutWake. rewrite Hh. split.
  - intros ->. reflexivity.
  - intros [q Hq]. rewrite Hq. repeat split.
    + engine_unfold. norm_new. reflexivity.
    + intros b. engine_unfold. simpl. rewrite Hh, lookup_delete_eq. reflexivity.
Qed.


(** ** The local answer and our Mac *)

(** X13: the local answer is put into the record's one-slot channel and
    the timer extended; on no, nothing is sent and nothing cancelled; on
    yes, our Mac message goes to the recorded peer device with our device
    key id as its only entry, unless olm fails to compute a MAC.  The
    store is neither consulted nor changed. *)
Theorem sasCompared_answer (mach : OlmMachine) (transactionID : string) (p : loc)
    (verState : verificationState) :
  heap mach !! p = Some verState ->
  sasMatched verState = None ->
  (keyVerificationTransactionState (sasCompared mach false transactionID p) =
     keyVerificationTransactionState mach
   /\ heap (sasCompared mach false transactionID p) =
        <[p := set_sasMatched verState (Some false)]> (heap mach)
   /\ newEffects mach (sasCompared mach false transactionID p) = [ExtendTimeout p])
  /\ (keyVerificationTransactionState (sasCompared mach true transactionID p) =
        keyVerificationTransactionState mach
      /\ heap (sasCompared mach true transactionID p) =
           <[p := set_sasMatched verState (Some true)]> (heap mach)
      /\ newEffects mach (sasCompared mach true transactionID p) =
           ExtendTimeout p ::
           match getPKAndKeysMAC (sas verState) (Client_UserID mach) (Client_DeviceID mach)
                   (UserID_ (otherDevice verState)) (DeviceID_ (otherDevice verState))
                   transactionID (account_SigningKey mach)
                   (NewKeyID KeyAlgorithmEd25519 (Client_DeviceID mach)) None with
           | Some (pubKeyMac, keysMac) =>
             [SendToDevice (UserID_ (otherDevice verState)) (DeviceID_ (otherDevice verState))
                ToDeviceVerificationMAC
                (ContentMac
                   {| mac_TransactionID := transactionID;
                      mac_Mac := Some [(NewKeyID KeyAlgorithmEd25519 (Client_DeviceID mach),
                                        pubKeyMac)];
                      mac_Keys := keysMac |})]
           | None => []
           end).
Proof.
  intros Hh Hm. unfold sasCompared. rewrite Hh, Hm. simpl. split.
  - repeat split. engine_unfold. norm_new. reflexivity.
  - unfold SendSASVerificationMAC. simpl.
    destruct (getPKAndKeysMAC _ _ _ _ _ _ _ _ _) as [[pk km]|];
      repeat split; engine_unfold; norm_new; reflexivity.
Qed.

(** X14: the Mac message that one machine sends on its user's yes is
    accepted by the other: when the receiver's record names the sender's
    user, device and signing key, the receiver's user has said yes, and
    both sessions compute the same MACs, the judgement of that message
    writes the sender's device as verified and tells the host. *)
Theorem honest_mac_accepted (A B : OlmMachine) (sA : SAS) (transactionID : string)
    (p : loc) (vB : verificationState) (pubKeyMac keysMac : string) :
  heap B !! p = Some vB ->
  sasMatched vB = Some true ->
  UserID_ (otherDevice vB) = Client_UserID A ->
  DeviceID_ (otherDevice vB) = Client_DeviceID A ->
  SigningKey_ (otherDevice vB) = account_SigningKey A ->
  (forall input info, CalculateMAC (sas vB) input info = CalculateMAC sA input info) ->
  getPKAndKeysMAC sA (Client_UserID A) (Client_DeviceID A)
    (Client_UserID B) (Client_DeviceID B) transactionID (account_SigningKey A)
    (NewKeyID KeyAlgorithmEd25519 (Client_DeviceID A)) None = Some (pubKeyMac, keysMac) ->
  newEffects A
    (SendSASVerificationMAC A (Client_UserID B) (Client_DeviceID B) transactionID sA).2 =
    [SendToDevice (Client_UserID B) (Client_DeviceID B) ToDeviceVerificationMAC
       (ContentMac
          {| mac_TransactionID := transactionID;
             mac_Mac := Some [(NewKeyID KeyAlgorithmEd25519 (Client_DeviceID A), pubKeyMac)];
             mac_Keys := keysMac |})]
  /\ newEffects B
       (awaitSASMatched B p
          {| mac_TransactionID := transactionID;
             mac_Mac := Some [(NewKeyID KeyAlgorithmEd25519 (Client_DeviceID A), pubKeyMac)];
             mac_Keys := keysMac |}) =
     [PutDevice (UserID_ (otherDevice vB)) (verified (otherDevice vB));
      OnSuccess (hooks vB)].
Proof.
  intros Hh Hm Hu Hd Hk Hmac Hsent. split.
  - unfold SendSASVerificationMAC. rewrite Hsent. engine_unfold. norm_new. reflexivity.
  - unfold awaitSASMatched. rewrite Hh, Hm. simpl.
    rewrite Hu, Hd, Hk.
    assert (Hexp :
      getPKAndKeysMAC (sas vB) (Client_UserID A) (Client_DeviceID A)
        (Client_UserID B) (Client_DeviceID B) transactionID (account_SigningKey A)
        (NewKeyID KeyAlgorithmEd25519 (Client_DeviceID A))
        (Some [(NewKeyID KeyAlgorithmEd25519 (Client_DeviceID A), pubKeyMac)]) =
      Some (pubKeyMac, keysMac)).
    { unfold getPKAndKeysMAC in *. cbv zeta in *. rewrite !Hmac. exact Hsent. }
    rewrite Hexp. unfold mapIndex. simpl. rewrite !String.eqb_refl. simpl.
    engine_unfold. norm_new. unfold verified. rewrite Hu, Hd, Hk. reflexivity.
Qed.

(** ** Starting a verification that does not get stored *)

(** X15: [NewSASVerificationWith] sends the Start message before anything
    is stored.  When the transport fails on it, or the start event cannot
    be marshalled or canonicalised, the call returns the error, the store
    is left as it was and no timer is armed; the Start message has been
    handed to the transport all the same. *)
Theorem failed_start_stores_nothing (mach : OlmMachine) (device : DeviceIdentity)
    (hks : VerificationHooks) (transactionID : string) (timeout : nat)
    (newSAS : SAS) (rnd : string) :
  transactionID ≠ "" ->
  sendFails (UserID_ device) (DeviceID_ device) ToDeviceVerificationStart
    (ContentStart (startEventOf mach transactionID (VerificationMethods hks))) = true \/
  jsonMarshal (startEventOf mach transactionID (VerificationMethods hks)) = None \/
  (exists payload,
     jsonMarshal (startEventOf mach transactionID (VerificationMethods hks)) = Some payload /\
     CanonicalJSON payload = None) ->
  (exists err,
     (NewSASVerificationWith mach device hks transactionID timeout newSAS rnd).1 = inr err)
  /\ keyVerificationTransactionState
       (NewSASVerificationWith mach device hks transactionID timeout newSAS rnd).2 =
     keyVerificationTransactionState mach
  /\ newEffects mach
       (NewSASVerificationWith mach device hks transactionID timeout newSAS rnd).2 =
     [SendToDevice (UserID_ device) (DeviceID_ device) ToDeviceVerificationStart
        (ContentStart (startEventOf mach transactionID (VerificationMethods hks)))].
Proof.
  intros Hne Hfail. apply String.eqb_neq in Hne.
  unfold startEventOf in *. engine_unfold. simpl in *. rewrite Hne.
  destruct (sendFails _ _ _ _) eqn:Hsend.
  - simpl. repeat split; eauto. norm_new. reflexivity.
  - destruct Hfail as [Hf | [Hj | (payload & Hj & Hc)]]; [discriminate | |].
    + rewrite Hj. simpl. repeat split; eauto. norm_new. reflexivity.
    + rewrite Hj, Hc. simpl. repeat split; eauto. norm_new. reflexivity.
Qed.

(** X16: [SendSASVerificationAccept] on a start event whose method is not
    SAS sends no Accept: it sends the sender one Cancel "Unknown
    verification method: " followed by the method, with the unknown-method
    code, and returns an error, the transport's if the Cancel could not be
    sent and the unknown-verification-method error otherwise. *)
Theorem accept_refuses_other_methods (mach : OlmMachine) (fromUser : UserID)
    (startEvent : VerificationStartEventContent) (publicKey : string)
    (methods : list VerificationMethod) :
  start_Method startEvent ≠ VerificationMethodSAS ->
  (SendSASVerificationAccept mach fromUser startEvent publicKey methods).1 =
    Some (if sendFails fromUser (start_FromDevice startEvent) ToDeviceVerificationCancel
               (ContentCancel
                  {| cancel_TransactionID := start_TransactionID startEvent;
                     cancel_Reason :=
                       "Unknown verification method: " +:+ start_Method startEvent;
                     cancel_Code := VerificationCancelUnknownMethod |})
          then ErrTransport else ErrUnknownVerificationMethod)
  /\ onlyEmits mach (SendSASVerificationAccept mach fromUser startEvent publicKey methods).2
       [cancelMessage fromUser (start_FromDevice startEvent) (start_TransactionID startEvent)
          ("Unknown verification method: " +:+ start_Method startEvent)
          VerificationCancelUnknownMethod].
Proof.
  intros Hne. apply String.eqb_neq in Hne.
  unfold SendSASVerificationAccept. rewrite Hne. simpl.
  unfold SendSASVerificationCancel, sendToOneDevice.
  destruct (sendFails _ _ _ _); simpl; repeat split.
Qed.

(** ** The SAS and who comes first *)

(** X17: when a Key message is taken, the SAS is generated with the
    initiator's user, device and key before the acceptor's whichever side
    we are: as initiator (after the commitment check) ours come first, as
    responder (after our own Key has been sent) the peer's.  The host is
    asked to compare only if the method yields a SAS; and when the
    responder's Key cannot be sent nothing more happens, although the
    peer's key stays taken. *)
Theorem sas_initiator_first (mach : OlmMachine) (userID : UserID)
    (content : VerificationKeyEventContent) (p : loc) (verState : verificationState)
    (sas' : SAS) (sasMethod : VerificationMethod) :
  stored mach userID (key_TransactionID content) p verState ->
  UserID_ (otherDevice verState) = userID ->
  verificationStarted verState = true ->
  keyReceived verState = false ->
  SetTheirKey (sas verState) (key_Key content) = Some sas' ->
  chosenSASMethod verState = Some sasMethod ->
  (initiatedByUs verState = true ->
   Sha256 (key_Key content +:+ startEventCanonical verState) = commitment verState ->
   newEffects mach (handleVerificationKey mach userID content) =
     ExtendTimeout p ::
     match GetVerificationSAS sasMethod
             (Client_UserID mach) (Client_DeviceID mach) (GetPubkey sas')
             (UserID_ (otherDevice verState)) (DeviceID_ (otherDevice verState))
             (key_Key content) (key_TransactionID content) sas' with
     | Some sasData =>
       [GoVerifySASMatch p (key_TransactionID content) (otherDevice verState) sasData]
     | None => []
     end)
  /\ (initiatedByUs verState = false ->
      sendFails userID (DeviceID_ (otherDevice verState)) ToDeviceVerificationKey
        (ContentKey {| key_TransactionID := key_TransactionID content;
                       key_Key := GetPubkey sas' |}) = false ->
      newEffects mach (handleVerificationKey mach userID content) =
        ExtendTimeout p ::
        SendToDevice userID (DeviceID_ (otherDevice verState)) ToDeviceVerificationKey
          (ContentKey {| key_TransactionID := key_TransactionID content;
                         key_Key := GetPubkey sas' |}) ::
        match GetVerificationSAS sasMethod
                (UserID_ (otherDevice verState)) (DeviceID_ (otherDevice verState))
                (key_Key content)
                (Client_UserID mach) (Client_DeviceID mach) (GetPubkey sas')
                (key_TransactionID content) sas' with
        | Some sasData =>
          [GoVerifySASMatch p (key_TransactionID content) (otherDevice verState) sasData]
        | None => []
        end)
  /\ (initiatedByUs verState = false ->
      sendFails userID (DeviceID_ (otherDevice verState)) ToDeviceVerificationKey
        (ContentKey {| key_TransactionID := key_TransactionID content;
                       key_Key := GetPubkey sas' |}) = true ->
      newEffects mach (handleVerificationKey mach userID content) =
        [ExtendTimeout p;
         SendToDevice userID (DeviceID_ (otherDevice verState)) ToDeviceVerificationKey
           (ContentKey {| key_TransactionID := key_TransactionID content;
                          key_Key := GetPubkey sas' |})]
      /\ stored (handleVerificationKey mach userID content) userID
           (key_TransactionID content) p (set_keyReceived (set_sas verState sas') true)).
Proof.
  intros [Hs Hh] Hu Hv Hk Hset Hm. subst userID.
  unfold handleVerificationKey, getTransactionState, stored. cbv zeta.
  rewrite Hs, Hh, String.eqb_refl. simpl.
  rewrite Hv, Hk. simpl. rewrite Hset. simpl. rewrite Hm.
  split; [| split].
  - intros Hi Hc. rewrite Hi, Hc, String.eqb_refl. engine_unfold. simpl.
    destruct (GetVerificationSAS _ _ _ _ _ _ _ _ _); norm_new; reflexivity.
  - intros Hi Hsend. rewrite Hi. unfold SendSASVerificationKey, sendToOneDevice.
    rewrite Hsend. engine_unfold. simpl.
    destruct (GetVerificationSAS _ _ _ _ _ _ _ _ _); norm_new; reflexivity.
  - intros Hi Hsend. rewrite Hi. unfold SendSASVerificationKey, sendToOneDevice.
    rewrite Hsend. simpl. split.
    + engine_unfold. norm_new. reflexivity.
    + split; [exact Hs | apply lookup_insert_eq].
Qed.

(** ** What every record satisfies *)

Ltac use_recordOK Hok :=
  repeat match goal with
  | H : heap _ !! _ = Some _ |- _ =>
    let Hr := fresh "Hr" in pose proof (Hok _ _ H) as Hr; revert H
  end;
  intros.

Lemma step_recordsOK (mach : OlmMachine) (i : Input) :
  recordsOK mach -> recordsOK (step mach i).
Proof.
  intros Hok. destruct i; unfold step.
  all: engine_unfold; repeat (case_match; simplify_eq/=).
  all: intros q' v' Hq'; simpl in *.
  all: repeat match goal with
       | H : <[_:=_]> _ !! _ = Some _ |- _ =>
         apply lookup_insert_Some in H as [[? ?] | [? H]]; subst
       end.
  all: try (eapply Hok; eassumption).
  all: use_recordOK Hok.
  all: unfold recordOK in *; simpl in *.
  all: repeat match goal with
       | H : negb _ || _ = false |- _ => apply orb_false_elim in H as [? ?]
       | H : _ || _ = false |- _ => apply orb_false_elim in H as [? ?]
       | H : negb _ = false |- _ => apply negb_false_iff in H
       end.
  all: try (destruct_and?; split_and?; eauto; congruence).
  destruct (commonSASMethods _ _); simpl in *; [discriminate |].
  split_and?; eauto.
Qed.

(** X18: from a machine without records, whatever messages, answers and
    timer turns follow, every record keeps that a started verification has
    its SAS method chosen (so that [handleVerificationKey] never calls a
    nil method), that the peer's key is taken only in a started
    verification, and that a transaction the peer initiated is started. *)
Theorem records_stay_ok (mach : OlmMachine) (inputs : list Input) :
  heap mach = ∅ ->
  forall p v, heap (run mach inputs) !! p = Some v -> recordOK v.
Proof.
  intros Hempty.
  assert (Hok : recordsOK mach).
  { intros p v. rewrite Hempty, lookup_empty. discriminate. }
  clear Hempty. revert mach Hok.
  induction inputs as [|i inputs IH]; intros mach Hok; simpl.
  - exact Hok.
  - apply IH. now apply step_recordsOK.
Qed.

(** ** Handlers in sequence *)

(** X19: an honest responder passes the commitment check.  When the
    Accept carries the hash of the responder's key followed by the
    canonical start payload that we kept, taking the Accept and then the
    responder's Key leaves the transaction in the store, with the
    commitment, the chosen method and the key recorded, and the Key step
    cancels nothing. *)
Theorem honest_commitment_passes (mach : OlmMachine) (userID : UserID)
    (accept : VerificationAcceptEventContent) (key : VerificationKeyEventContent)
    (p : loc) (verState : verificationState) (sas' : SAS)
    (m0 : VerificationMethod) (ms : list VerificationMethod) :
  stored mach userID (accept_TransactionID accept) p verState ->
  UserID_ (otherDevice verState) = userID ->
  initiatedByUs verState = true ->
  verificationStarted verState = false ->
  keyReceived verState = false ->
  accept_KeyAgreementProtocol accept = KeyAgreementCurve25519HKDFSHA256 ->
  accept_Hash accept = VerificationHashSHA256 ->
  accept_MessageAuthenticationCode accept = HKDFHMACSHA256 ->
  commonSASMethods (hooks verState) (accept_ShortAuthenticationString accept) = m0 :: ms ->
  accept_Commitment accept = Sha256 (key_Key key +:+ startEventCanonical verState) ->
  key_TransactionID key = accept_TransactionID accept ->
  SetTheirKey (sas verState) (key_Key key) = Some sas' ->
  stored (handleVerificationKey (handleVerificationAccept mach userID accept) userID key)
    userID (accept_TransactionID accept) p
    (set_keyReceived
       (set_sas (set_accepted verState (accept_Commitment accept) (Some m0)) sas') true)
  /\ Forall (fun e => isCancellation e = false)
       (newEffects (handleVerificationAccept mach userID accept)
          (handleVerificationKey (handleVerificationAccept mach userID accept) userID key)).
Proof.
  intros Hst Hu Hi Hv Hk Hka Hhash Hmac Hcommon Hcommit Htxn Hset.
  destruct (accept_taken _ _ _ _ _ _ _ Hst Hu Hi Hv Hka Hhash Hmac Hcommon)
    as [[Hs1 Hh1] _].
  rewrite <- Htxn in *.
  unfold handleVerificationKey, getTransactionState, stored. cbv zeta.
  rewrite Hs1, Hh1. simpl. rewrite Hu, String.eqb_refl. simpl.
  rewrite Hk. simpl. rewrite Hset. simpl. rewrite Hi.
  rewrite Hcommit, String.eqb_refl. simpl.
  destruct (GetVerificationSAS _ _ _ _ _ _ _ _ _); simpl.
  all: split; [split; [exact Hs1 | apply lookup_insert_eq] |].
  all: engine_unfold; norm_new; repeat constructor.
Qed.

(** X20: after an inbound Cancel the transaction is unknown: a Key, Mac
    or Accept that follows for the same sender and transaction id gets
    the unknown-transaction Cancel and changes nothing else. *)
Theorem cancelled_then_unknown (mach : OlmMachine) (userID : UserID)
    (cancel : VerificationCancelEventContent) :
  (forall content,
     accept_TransactionID content = cancel_TransactionID cancel ->
     onlyEmits (handleVerificationCancel mach userID cancel)
       (handleVerificationAccept (handleVerificationCancel mach userID cancel) userID content)
       [cancelMessage userID "*" (cancel_TransactionID cancel)
          ("Unknown transaction: " +:+ cancel_TransactionID cancel)
          VerificationCancelUnknownTransaction])
  /\ (forall content,
        key_TransactionID content = cancel_TransactionID cancel ->
        onlyEmits (handleVerificationCancel mach userID cancel)
          (handleVerificationKey (handleVerificationCancel mach userID cancel) userID content)
          [cancelMessage userID "*" (cancel_TransactionID cancel)
             ("Unknown transaction: " +:+ cancel_TransactionID cancel)
             VerificationCancelUnknownTransaction])
  /\ (forall content,
        mac_TransactionID content = cancel_TransactionID cancel ->
        onlyEmits (handleVerificationCancel mach userID cancel)
          (handleVerificationMAC (handleVerificationCancel mach userID cancel) userID content)
          [cancelMessage userID "*" (cancel_TransactionID cancel)
             ("Unknown transaction: " +:+ cancel_TransactionID cancel)
             VerificationCancelUnknownTransaction]).
Proof.
  assert (Hgone :
    keyVerificationTransactionState (handleVerificationCancel mach userID cancel)
      !! mapKey userID (cancel_TransactionID cancel) = None).
  { unfold handleVerificationCancel. cbv zeta. simpl. apply lookup_delete_eq. }
  split; [| split]; intros content Htxn.
  - unfold handleVerificationAccept, getTransactionState.
    rewrite Htxn, Hgone. repeat split.
  - unfold handleVerificationKey, getTransactionState. cbv zeta.
    rewrite Htxn, Hgone. repeat split.
  - unfold handleVerificationMAC, getTransactionState.
    rewrite Htxn, Hgone. repeat split.
Qed.

(** X21: the initiator and the responder of one transaction hand the
    same SAS to their users.  When each side records the other's user and
    device, both have chosen the same method, each takes the other's
    public key, and the two sessions yield the same SAS for the same
    arguments, the SAS that the initiator's Key handler gives the host to
    compare is the one the responder's Key handler gives. *)
Theorem both_sides_same_sas (A B : OlmMachine) (transactionID : string)
    (pA pB : loc) (vA vB : verificationState) (sA' sB' : SAS)
    (sasMethod : VerificationMethod) (sasData : SASData) :
  stored A (Client_UserID B) transactionID pA vA ->
  stored B (Client_UserID A) transactionID pB vB ->
  UserID_ (otherDevice vA) = Client_UserID B ->
  DeviceID_ (otherDevice vA) = Client_DeviceID B ->
  UserID_ (otherDevice vB) = Client_UserID A ->
  DeviceID_ (otherDevice vB) = Client_DeviceID A ->
  initiatedByUs vA = true -> initiatedByUs vB = false ->
  verificationStarted vA = true -> verificationStarted vB = true ->
  keyReceived vA = false -> keyReceived vB = false ->
  chosenSASMethod vA = Some sasMethod -> chosenSASMethod vB = Some sasMethod ->
  SetTheirKey (sas vA) (GetPubkey sB') = Some sA' ->
  SetTheirKey (sas vB) (GetPubkey sA') = Some sB' ->
  Sha256 (GetPubkey sB' +:+ startEventCanonical vA) = commitment vA ->
  sendFails (Client_UserID A) (Client_DeviceID A) ToDeviceVerificationKey
    (ContentKey {| key_TransactionID := transactionID; key_Key := GetPubkey sB' |}) = false ->
  (forall u1 d1 k1 u2 d2 k2 t,
     GetVerificationSAS sasMethod u1 d1 k1 u2 d2 k2 t sB' =
     GetVerificationSAS sasMethod u1 d1 k1 u2 d2 k2 t sA') ->
  GetVerificationSAS sasMethod (Client_UserID A) (Client_DeviceID A) (GetPubkey sA')
    (Client_UserID B) (Client_DeviceID B) (GetPubkey sB') transactionID sA' = Some sasData ->
  newEffects A
    (handleVerificationKey A (Client_UserID B)
       {| key_TransactionID := transactionID; key_Key := GetPubkey sB' |}) =
    [ExtendTimeout pA; GoVerifySASMatch pA transactionID (otherDevice vA) sasData]
  /\ newEffects B
       (handleVerificationKey B (Client_UserID A)
          {| key_TransactionID := transactionID; key_Key := GetPubkey sA' |}) =
     [ExtendTimeout pB;
      SendToDevice (Client_UserID A) (Client_DeviceID A) ToDeviceVerificationKey
        (ContentKey {| key_TransactionID := transactionID; key_Key := GetPubkey sB' |});
      GoVerifySASMatch pB transactionID (otherDevice vB) sasData].
Proof.
  intros [HsA HhA] [HsB HhB] HuA HdA HuB HdB HiA HiB HvA HvB HkA HkB HmA HmB
    HsetA HsetB Hcommit Hsend Hagree Hsas.
  split.
  - unfold handleVerificationKey, getTransactionState. cbv zeta. simpl.
    rewrite HsA, HhA, HuA, String.eqb_refl. simpl.
    rewrite HvA, HkA. simpl. rewrite HsetA. simpl. rewrite HmA, HiA.
    rewrite Hcommit, String.eqb_refl. engine_unfold. simpl.
    rewrite HuA, HdA, Hsas. norm_new. reflexivity.
  - unfold handleVerificationKey, getTransactionState. cbv zeta. simpl.
    rewrite HsB, HhB, HuB, String.eqb_refl. simpl.
    rewrite HvB, HkB. simpl. rewrite HsetB. simpl. rewrite HmB, HiB.
    unfold SendSASVerificationKey, sendToOneDevice. rewrite HdB, Hsend.
    engine_unfold. simpl.
    rewrite ?HuB, ?HdB, Hagree, Hsas. norm_new. reflexivity.
Qed.

(** X22: an Accept, Key or Mac message from the recorded peer user of a
    stored transaction extends the transaction's timer before anything
    else, whether the message is then taken or rejected. *)
Theorem known_message_extends_timer (mach : OlmMachine) (userID transactionID : string)
    (p : loc) (verState : verificationState) (i : Input) :
  stored mach userID transactionID p verState ->
  UserID_ (otherDevice verState) = userID ->
  (exists content, i = InAccept userID content /\ accept_TransactionID content = transactionID) \/
  (exists content, i = InKey userID content /\ key_TransactionID content = transactionID) \/
  (exists content, i = InMac userID content /\ mac_TransactionID content = transactionID) ->
  exists rest, newEffects mach (step mach i) = ExtendTimeout p :: rest.
Proof.
  intros [Hs Hh] Hu Hi.
  destruct Hi as [(c & -> & <-) | [(c & -> & <-) | (c & -> & <-)]]; unfold step.
  - unfold handleVerificationAccept, getTransactionState.
    rewrite Hs, Hh, Hu, String.eqb_refl. simpl.
    repeat case_match; engine_unfold; norm_new; eauto.
  - unfold handleVerificationKey, getTransactionState. cbv zeta.
    rewrite Hs, Hh, Hu, String.eqb_refl. simpl.
    repeat (case_match; simplify_eq/=); engine_unfold; norm_new; eauto.
  - unfold handleVerificationMAC, getTransactionState.
    rewrite Hs, Hh, Hu, String.eqb_refl. simpl.
    repeat case_match; engine_unfold; norm_new; eauto.
Qed.

End Properties.

(** * The properties at work in the concrete world *)

Module Scenarios.
Import Demo.

Example getPKAndKeysMAC_demo :
  getPKAndKeysMAC ("AK", None) "@u:x" "D1" "@v:y" "D2" "T" "sk" "ed25519:D1"
    (Some [("ed25519:D1", "m1"); ("ed25519:B", "m2")]) =
  Some ("mac(sk|MATRIX_KEY_VERIFICATION_MAC@u:xD1@v:yD2Ted25519:D1)",
        "mac(ed25519:B,ed25519:D1|MATRIX_KEY_VERIFICATION_MAC@u:xD1@v:yD2TKEY_IDS)").
Proof. vm_compute. reflexivity. Qed.

Example aliceAfterKey_stored : stored aliceAfterKey bob "t1" 0 recordAfterKey.
Proof. split; vm_compute; reflexivity. Qed.

Example aliceAccepted_stored (commitment : string) :
  stored (aliceAccepted commitment) bob "t1" 0 (recordAccepted commitment).
Proof. split; vm_compute; reflexivity. Qed.

Example aliceStarted_stored :
  stored aliceStarted bob "t1" 0
    {| sas := ("AK", None); otherDevice := bobDevice; initiatedByUs := true;
       verificationStarted := false; keyReceived := false; sasMatched := None;
       commitment := "";
       startEventCanonical := "{from:ALICEDEV,txn:t1,sas:emoji,decimal}";
       hooks := theHooks; chosenSASMethod := None |}.
Proof. split; vm_compute; reflexivity. Qed.

Lemma aliceAfterKey_wf : wf aliceAfterKey.
Proof. apply run_wf, wf_empty. reflexivity. Defined.

(** Scenario A, both sides: Alice starts, Bob accepts and commits to his
    key, the keys cross, Alice's commitment check passes, and both sides
    hand the same SAS to their users. *)
Example scenario_handshake :
  let start := startEventOf alice "t1" (VerificationMethods theHooks) in
  let bob1 := step bobMachine (InStart "@alice:example.org" start 600 ("BK", None)) in
  let alice2 := aliceAccepted honestCommitment in
  let bob2 := step bob1 (InKey "@alice:example.org" {| key_TransactionID := "t1"; key_Key := "AK" |}) in
  let alice3 := step alice2 (InKey bob bobKey) in
  newEffects bobMachine bob1 =
    [TimeoutAfter 0 "t1" 600;
     SendToDevice "@alice:example.org" "ALICEDEV" ToDeviceVerificationAccept
       (ContentAccept (bobAccept honestCommitment))]
  /\ newEffects aliceStarted alice2 =
       [ExtendTimeout 0;
        SendToDevice bob "BOBDEV" ToDeviceVerificationKey
          (ContentKey {| key_TransactionID := "t1"; key_Key := "AK" |})]
  /\ newEffects bob1 bob2 =
       [ExtendTimeout 0;
        SendToDevice "@alice:example.org" "ALICEDEV" ToDeviceVerificationKey
          (ContentKey bobKey);
        GoVerifySASMatch 0 "t1"
          {| UserID_ := "@alice:example.org"; DeviceID_ := "ALICEDEV";
             SigningKey_ := "ed:ALICEDEV"; Trust := TrustStateUnset |}
          "emoji/AK/BK/t1"]
  /\ newEffects alice2 alice3 =
       [ExtendTimeout 0; GoVerifySASMatch 0 "t1" bobDevice "emoji/AK/BK/t1"].
Proof. repeat split; vm_compute; reflexivity. Qed.

(** Scenario A on Alice's side, second half: she answers yes, Bob's Mac
    arrives and is judged; Bob's device is written as verified and the
    host told. *)
Example scenario_verified :
  newEffects aliceAfterKey
    (run aliceAfterKey
       [InSASCompared true "t1" 0; InMac bob bobMac; InAwaitSASMatched 0 bobMac]) =
  [ExtendTimeout 0;
   SendToDevice bob "BOBDEV" ToDeviceVerificationMAC
     (ContentMac
        {| mac_TransactionID := "t1";
           mac_Mac := Some [("ed25519:ALICEDEV",
             "mac(ed:ALICEDEV|MATRIX_KEY_VERIFICATION_MAC@alice:example.orgALICEDEV@bob:example.orgBOBDEVt1ed25519:ALICEDEV)")];
           mac_Keys :=
             "mac(ed25519:ALICEDEV|MATRIX_KEY_VERIFICATION_MAC@alice:example.orgALICEDEV@bob:example.orgBOBDEVt1KEY_IDS)" |});
   ExtendTimeout 0;
   GoAwaitSASMatched 0 bobMac;
   PutDevice bob (verified bobDevice);
   OnSuccess theHooks].
Proof. vm_compute. reflexivity. Qed.

(** Scenario B on the side that answers no: nothing is sent on the answer;
    when the peer's Mac is judged the transaction is cancelled with "SAS do
    not match", and trust is not written. *)
Example scenario_sas_mismatch :
  newEffects aliceAfterKey
    (run aliceAfterKey
       [InSASCompared false "t1" 0; InMac bob bobMac; InAwaitSASMatched 0 bobMac]) =
  [ExtendTimeout 0; ExtendTimeout 0; GoAwaitSASMatched 0 bobMac;
   OnCancel theHooks true "SAS do not match" VerificationCancelSASMismatch;
   cancelMessage bob "BOBDEV" "t1" "SAS do not match" VerificationCancelSASMismatch].
Proof. vm_compute. reflexivity. Qed.

(** Of the entries of the peer's [Mac] map only the one of the peer's
    device key is compared; a further entry takes part through the key-id
    list alone, whatever its value. *)
Example further_mac_entry_is_not_compared :
  let content :=
    {| mac_TransactionID := "t1";
       mac_Mac := Some [("ed25519:MASTER", "anything");
                        ("ed25519:BOBDEV", mapIndex (mac_Mac bobMac) "ed25519:BOBDEV")];
       mac_Keys :=
         "mac(ed25519:BOBDEV,ed25519:MASTER|MATRIX_KEY_VERIFICATION_MAC@bob:example.orgBOBDEV@alice:example.orgALICEDEVt1KEY_IDS)" |} in
  existsb isTrust
    (newEffects aliceAfterKey
       (run aliceAfterKey
          [InSASCompared true "t1" 0; InMac bob content; InAwaitSASMatched 0 content]))
  = true.
Proof. vm_compute. reflexivity. Qed.

(** A Cancel is obeyed whoever sends it: the store key is the sender's
    user id, a colon and the transaction id, so a Cancel from
    "@bob:example.org" for transaction "8448:t1" deletes the transaction
    "t1" that Alice runs with "@bob:example.org:8448". *)
Example cancel_from_another_user :
  let peer :=
    {| UserID_ := "@bob:example.org:8448"; DeviceID_ := "DEV";
       SigningKey_ := "ed:DEV"; Trust := TrustStateUnset |} in
  let mach :=
    run alice [InNewSASVerificationWith peer theHooks "t1" 600 ("AK", None) "42"] in
  let mach' :=
    handleVerificationCancel mach "@bob:example.org"
      {| cancel_TransactionID := "8448:t1"; cancel_Reason := "bye";
         cancel_Code := VerificationCancelByUser |} in
  keyVerificationTransactionState mach !! mapKey "@bob:example.org:8448" "t1" = Some 0
  /\ keyVerificationTransactionState mach' !! mapKey "@bob:example.org:8448" "t1" = None
  /\ newEffects mach mach' = [OnCancel theHooks false "bye" VerificationCancelByUser].
Proof. repeat split; vm_compute; reflexivity. Qed.

(** ** Witnesses *)

Lemma getPKAndKeysMAC_iteration_order_witness :
  NoDup [("b", "1"); ("a", "2")].*1 /\ NoDup [("a", "x"); ("b", "y")].*1 /\
  getPKAndKeysMAC ("AK", None) "@u:x" "D1" "@v:y" "D2" "T" "sk" "ed25519:D1"
    (Some [("b", "1"); ("a", "2")]) =
  getPKAndKeysMAC ("AK", None) "@u:x" "D1" "@v:y" "D2" "T" "sk" "ed25519:D1"
    (Some [("a", "x"); ("b", "y")]).
Proof.
  assert (H1 : NoDup [("b", "1"); ("a", "2")].*1)
    by (apply (bool_decide_unpack _); vm_compute; exact I).
  assert (H2 : NoDup [("a", "x"); ("b", "y")].*1)
    by (apply (bool_decide_unpack _); vm_compute; exact I).
  split; [exact H1 | split; [exact H2 |]].
  refine (proj1 (getPKAndKeysMAC_iteration_order _ _ _ _ _ _ _ _ _ _ H1 H2 _)).
  intros k. simpl. rewrite !elem_of_cons, !elem_of_nil. tauto.
Defined.

Lemma unknown_transaction_cancel_witness :
  keyVerificationTransactionState alice !! mapKey bob "t9" = None /\
  onlyEmits alice
    (handleVerificationKey alice bob {| key_TransactionID := "t9"; key_Key := "BK" |})
    [cancelMessage bob "*" "t9" "Unknown transaction: t9"
       VerificationCancelUnknownTransaction].
Proof.
  split; [reflexivity |].
  exact (proj1 (proj2 (unknown_transaction_cancel alice bob "t9" eq_refl))
           {| key_TransactionID := "t9"; key_Key := "BK" |} eq_refl).
Defined.

Lemma unexpected_key_rejected_witness :
  stored aliceAfterKey bob "t1" 0 recordAfterKey /\
  keyReceived recordAfterKey = true /\
  keyVerificationTransactionState (handleVerificationKey aliceAfterKey bob secondKey)
    !! mapKey bob "t1" = None /\
  heap (handleVerificationKey aliceAfterKey bob secondKey) !! 0 = Some recordAfterKey /\
  newEffects aliceAfterKey (handleVerificationKey aliceAfterKey bob secondKey) =
    [ExtendTimeout 0;
     OnCancel theHooks true "Unexpected key message" VerificationCancelUnexpectedMessage;
     cancelMessage bob "BOBDEV" "t1" "Unexpected key message"
       VerificationCancelUnexpectedMessage].
Proof.
  pose proof aliceAfterKey_stored as Hst.
  destruct (proj1 (unexpected_key_rejected aliceAfterKey bob secondKey 0 recordAfterKey
                     Hst eq_refl) (or_introl eq_refl)) as (Hstore & Hheap & Heff).
  split; [exact Hst | split; [reflexivity | split; [| split]]].
  - rewrite Hstore. apply lookup_delete_eq.
  - rewrite Hheap. apply Hst.
  - now apply newEffects_app.
Defined.

Lemma removal_with_cancel_or_on_mac_witness :
  wf aliceAfterKey /\
  Exists (fun e => isCancellation e = true)
    (newEffects aliceAfterKey (step aliceAfterKey (InCancel bob byeCancel))).
Proof.
  split; [exact aliceAfterKey_wf |].
  destruct (proj1 (removal_with_cancel_or_on_mac aliceAfterKey (InCancel bob byeCancel)
                     aliceAfterKey_wf) (mapKey bob "t1"))
    as [(u & c & Heq) | H].
  - exists 0. vm_compute. reflexivity.
  - vm_compute. reflexivity.
  - discriminate Heq.
  - exact H.
Defined.

(** A commitment that is not the hash of Bob's key and Alice's start
    payload: Bob's Key ends the transaction. *)
Lemma commitment_made_and_checked_witness :
  stored (aliceAccepted "bogus") bob "t1" 0 (recordAccepted "bogus") /\
  keyVerificationTransactionState (handleVerificationKey (aliceAccepted "bogus") bob bobKey) =
    delete (mapKey bob "t1") (keyVerificationTransactionState (aliceAccepted "bogus")) /\
  newEffects (aliceAccepted "bogus") (handleVerificationKey (aliceAccepted "bogus") bob bobKey) =
    [ExtendTimeout 0;
     OnCancel theHooks true "Commitment mismatch" VerificationCancelCommitmentMismatch;
     cancelMessage bob "BOBDEV" "t1" "Commitment mismatch"
       VerificationCancelCommitmentMismatch].
Proof.
  pose proof (aliceAccepted_stored "bogus") as Hst.
  split; [exact Hst |].
  refine (proj1 (proj2 (proj2 (commitment_made_and_checked (host := host)))
                   (aliceAccepted "bogus") bob bobKey 0 (recordAccepted "bogus")
                   ("AK", Some "BK") Hst eq_refl eq_refl eq_refl eq_refl eq_refl) _).
  vm_compute. discriminate.
Defined.


(** An inbound Start for a transaction id that Alice already uses with Bob. *)
Lemma creation_on_taken_key_witness :
  stored aliceAfterKey bob "t1" 0 recordAfterKey /\
  stored (actuallyStartVerification aliceAfterKey bob bobStart bobDevice 600 ("AK3", None))
    bob "t1" 0 recordAfterKey /\
  newEffects aliceAfterKey
    (actuallyStartVerification aliceAfterKey bob bobStart bobDevice 600 ("AK3", None)) =
    [cancelMessage bob "BOBDEV" "t1" "Transaction already exists"
       VerificationCancelUnexpectedMessage].
Proof.
  pose proof aliceAfterKey_stored as Hst.
  destruct (proj1 (proj2 (creation_on_taken_key (host := host)))
              aliceAfterKey bob bobStart bobDevice 600 ("AK3", None) theHooks
              "emoji" ["decimal"] 0 recordAfterKey eq_refl eq_refl Hst)
    as (Hkeep & _ & Heff).
  split; [exact Hst | split; [exact Hkeep | exact Heff]].
Defined.

(** Bob's Start as Alice takes it: of her methods emoji and decimal, both
    of which Bob lists, the first is chosen. *)
Lemma commonSASMethods_negotiation_witness :
  commonSASMethods theHooks ["decimal"; "emoji"] = ["emoji"; "decimal"] /\
  stored (actuallyStartVerification alice bob bobStart bobDevice 600 ("AK", None))
    bob "t1" 0
    {| sas := ("AK", None); otherDevice := bobDevice; initiatedByUs := false;
       verificationStarted := true; keyReceived := false; sasMatched := None;
       commitment := ""; startEventCanonical := ""; hooks := theHooks;
       chosenSASMethod := Some "emoji" |}.
Proof.
  split; [vm_compute; reflexivity |].
  exact (proj2 (proj2 (commonSASMethods_negotiation (host := host)))
           alice bob bobStart bobDevice 600 ("AK", None) theHooks eq_refl eq_refl).
Defined.

Lemma handleVerificationCancel_silent_witness :
  stored aliceAfterKey bob "t1" 0 recordAfterKey /\
  keyVerificationTransactionState (handleVerificationCancel aliceAfterKey bob byeCancel)
    !! mapKey bob "t1" = None /\
  effects (handleVerificationCancel aliceAfterKey bob byeCancel) =
    (effects aliceAfterKey ++ [OnCancel theHooks false "bye" VerificationCancelByUser])%list.
Proof.
  pose proof aliceAfterKey_stored as Hst.
  destruct (handleVerificationCancel_silent aliceAfterKey bob byeCancel)
    as (Hstore & _ & Heff & _).
  split; [exact Hst | split].
  - rewrite Hstore. apply lookup_delete_eq.
  - exact (Heff 0 recordAfterKey Hst).
Defined.

(** ** Where the code departs from the specification *)


(** C6 as stated fails: Alice starts a second verification with Bob under
    a transaction id that is already in the store.  The stored transaction
    survives and the caller gets an error, but no Cancel is sent and the
    host's [OnCancel] is not called: the only effect is the Start message
    that went out before the collision was seen. *)
Lemma local_start_on_taken_key_cancels_nothing :
  (NewSASVerificationWith aliceStarted bobDevice theHooks "t1" 600 ("AK2", None) "43").1 =
    inr (ErrNew "Transaction already exists")
  /\ keyVerificationTransactionState
       (NewSASVerificationWith aliceStarted bobDevice theHooks "t1" 600 ("AK2", None) "43").2
       !! mapKey bob "t1" = Some 0
  /\ existsb isCancellation
       (newEffects aliceStarted
          (NewSASVerificationWith aliceStarted bobDevice theHooks "t1" 600 ("AK2", None) "43").2)
     = false
  /\ length
       (newEffects aliceStarted
          (NewSASVerificationWith aliceStarted bobDevice theHooks "t1" 600 ("AK2", None) "43").2)
     = 1.
Proof. repeat split; vm_compute; reflexivity. Qed.

(** C7 as stated fails: Bob's Mac arrives while Alice's user is still
    comparing the SAS.  The handler takes the transaction out of the store
    at once; nothing is cancelled, nothing is verified and no timer fired:
    the outcome waits in a goroutine for the local answer. *)
Lemma mac_removes_before_outcome :
  keyVerificationTransactionState aliceAfterKey !! mapKey bob "t1" = Some 0
  /\ keyVerificationTransactionState (step aliceAfterKey (InMac bob bobMac))
       !! mapKey bob "t1" = None
  /\ newEffects aliceAfterKey (step aliceAfterKey (InMac bob bobMac)) =
       [ExtendTimeout 0; GoAwaitSASMatched 0 bobMac]
  /\ existsb isCancellation
       (newEffects aliceAfterKey (step aliceAfterKey (InMac bob bobMac))) = false
  /\ existsb isTrust
       (newEffects aliceAfterKey (step aliceAfterKey (InMac bob bobMac))) = false.
Proof. repeat split; vm_compute; reflexivity. Qed.

End Scenarios.

(** * Further witnesses *)

Module Coverage.
Import Demo.

Example aliceStarted_record : stored aliceStarted bob "t1" 0 recordStarted.
Proof. split; vm_compute; reflexivity. Qed.

Example aliceAfterStart_record : stored aliceAfterStart bob "t1" 0 recordAfterStart.
Proof. split; vm_compute; reflexivity. Qed.

Example aliceWithPort_record : stored aliceWithPort bob "8448:t1" 0 recordWithPort.
Proof. split; vm_compute; reflexivity. Qed.

Example aliceAfterKey_record : stored aliceAfterKey bob "t1" 0 recordAfterKey.
Proof. split; vm_compute; reflexivity. Qed.

Example aliceAccepted_record :
  stored (aliceAccepted honestCommitment) bob "t1" 0 (recordAccepted honestCommitment).
Proof. split; vm_compute; reflexivity. Qed.

Lemma user_mismatch_cancelled_witness :
  stored aliceWithPort bob "8448:t1" 0 recordWithPort /\
  keyVerificationTransactionState
    (step aliceWithPort (InKey bob {| key_TransactionID := "8448:t1"; key_Key := "BK" |}))
    !! mapKey "@bob:example.org:8448" "t1" = None /\
  newEffects aliceWithPort
    (step aliceWithPort (InKey bob {| key_TransactionID := "8448:t1"; key_Key := "BK" |})) =
    [cancelMessage bob "*" "8448:t1"
       "Unknown user for transaction 8448:t1: @bob:example.org"
       VerificationCancelUserMismatch].
Proof.
  pose proof aliceWithPort_record as Hst.
  assert (Hne : UserID_ (otherDevice recordWithPort) ≠ bob) by (vm_compute; discriminate).
  destruct (user_mismatch_cancelled aliceWithPort bob "8448:t1" 0 recordWithPort Hst Hne
              (InKey bob {| key_TransactionID := "8448:t1"; key_Key := "BK" |})
              (or_intror (or_introl (ex_intro _ _ (conj eq_refl eq_refl)))))
    as (Hstore & _ & Heff).
  split; [exact Hst | split; [| exact Heff]].
  rewrite Hstore. apply lookup_delete_eq.
Defined.

Lemma unexpected_accept_rejected_witness :
  stored aliceAfterKey bob "t1" 0 recordAfterKey /\
  newEffects aliceAfterKey
    (handleVerificationAccept aliceAfterKey bob (bobAccept honestCommitment)) =
    [ExtendTimeout 0;
     OnCancel theHooks true "Unexpected accept message" VerificationCancelUnexpectedMessage;
     cancelMessage bob "BOBDEV" "t1" "Unexpected accept message"
       VerificationCancelUnexpectedMessage].
Proof.
  pose proof aliceAfterKey_record as Hst.
  split; [exact Hst |].
  exact (proj2 (proj2 (unexpected_accept_rejected aliceAfterKey bob
                         (bobAccept honestCommitment) 0 recordAfterKey Hst eq_refl
                         (or_introl eq_refl)))).
Defined.

Lemma accept_with_unknown_parameter_witness :
  stored aliceStarted bob "t1" 0 recordStarted /\
  newEffects aliceStarted (handleVerificationAccept aliceStarted bob md5Accept) =
    [ExtendTimeout 0;
     OnCancel theHooks true "Verification uses unknown method" VerificationCancelUnknownMethod;
     cancelMessage bob "BOBDEV" "t1" "Verification uses unknown method"
       VerificationCancelUnknownMethod].
Proof.
  pose proof aliceStarted_record as Hst.
  split; [exact Hst |].
  refine (proj2 (proj2 (accept_with_unknown_parameter (host := host) aliceStarted bob
                          md5Accept 0 recordStarted Hst eq_refl eq_refl eq_refl _))).
  right; left. vm_compute. discriminate.
Defined.

Lemma accept_once_witness :
  stored aliceStarted bob "t1" 0 recordStarted /\
  keyVerificationTransactionState
    (handleVerificationAccept
       (handleVerificationAccept aliceStarted bob (bobAccept honestCommitment))
       bob (bobAccept honestCommitment))
    !! mapKey bob "t1" = None.
Proof.
  pose proof aliceStarted_record as Hst.
  split; [exact Hst |].
  exact (proj1 (proj2 (accept_once (host := host) aliceStarted bob
                         (bobAccept honestCommitment) (bobAccept honestCommitment)
                         0 recordStarted "emoji" ["decimal"]
                         Hst eq_refl eq_refl eq_refl eq_refl eq_refl eq_refl eq_refl
                         eq_refl))).
Defined.

Lemma key_refused_by_olm_witness :
  stored (aliceAccepted honestCommitment) bob "t1" 0 (recordAccepted honestCommitment) /\
  onlyEmits (aliceAccepted honestCommitment)
    (handleVerificationKey (aliceAccepted honestCommitment) bob emptyKey)
    [ExtendTimeout 0].
Proof.
  pose proof aliceAccepted_record as Hst.
  split; [exact Hst |].
  exact (key_refused_by_olm (aliceAccepted honestCommitment) bob emptyKey 0
           (recordAccepted honestCommitment) Hst eq_refl eq_refl eq_refl eq_refl).
Defined.

Lemma unexpected_mac_rejected_witness :
  stored aliceStarted bob "t1" 0 recordStarted /\
  newEffects aliceStarted (handleVerificationMAC aliceStarted bob bobMac) =
    [ExtendTimeout 0;
     OnCancel theHooks true "Unexpected MAC message" VerificationCancelUnexpectedMessage;
     cancelMessage bob "BOBDEV" "t1" "Unexpected MAC message"
       VerificationCancelUnexpectedMessage].
Proof.
  pose proof aliceStarted_record as Hst.
  split; [exact Hst |].
  exact (proj2 (proj2 (unexpected_mac_rejected aliceStarted bob bobMac 0 recordStarted
                         Hst eq_refl (or_introl eq_refl)))).
Defined.

Lemma timeout_fires_once_witness :
  heap aliceStarted !! 0 = Some recordStarted /\
  newEffects aliceStarted (timeoutWake aliceStarted 0 "t1" 600 true) =
    [OnCancel theHooks true "Timed out" VerificationCancelByTimeout;
     cancelMessage bob "BOBDEV" "t1" "Timed out" VerificationCancelByTimeout] /\
  timeoutWake (timeoutWake aliceStarted 0 "t1" 600 true) 0 "t1" 600 true =
    timeoutWake aliceStarted 0 "t1" 600 true.
Proof.
  assert (Hh : heap aliceStarted !! 0 = Some recordStarted) by (vm_compute; reflexivity).
  assert (Hin : is_Some (keyVerificationTransactionState aliceStarted
                           !! mapKey (UserID_ (otherDevice recordStarted)) "t1"))
    by (exists 0; vm_compute; reflexivity).
  destruct (proj2 (timeout_fires_once aliceStarted 0 recordStarted "t1" 600 Hh) Hin)
    as (_ & _ & Heff & Hagain & _).
  split; [exact Hh | split; [exact Heff | exact (Hagain true)]].
Defined.


Lemma sasCompared_answer_witness :
  heap aliceAfterKey !! 0 = Some recordAfterKey /\
  newEffects aliceAfterKey (sasCompared aliceAfterKey false "t1" 0) = [ExtendTimeout 0].
Proof.
  assert (Hh : heap aliceAfterKey !! 0 = Some recordAfterKey) by (vm_compute; reflexivity).
  split; [exact Hh |].
  exact (proj2 (proj2 (proj1 (sasCompared_answer aliceAfterKey "t1" 0 recordAfterKey
                                Hh eq_refl)))).
Defined.

Lemma honest_mac_accepted_witness :
  heap aliceAwaiting !! 0 = Some recordAwaiting /\
  newEffects aliceAwaiting (awaitSASMatched aliceAwaiting 0 bobMac) =
    [PutDevice bob (verified bobDevice); OnSuccess theHooks].
Proof.
  assert (Hh : heap aliceAwaiting !! 0 = Some recordAwaiting) by (vm_compute; reflexivity).
  split; [exact Hh |].
  exact (proj2 (honest_mac_accepted bobMachine aliceAwaiting ("BK", Some "AK") "t1" 0
                  recordAwaiting
                  (mapIndex (mac_Mac bobMac) "ed25519:BOBDEV") (mac_Keys bobMac)
                  Hh eq_refl eq_refl eq_refl eq_refl (fun _ _ => eq_refl) eq_refl)).
Defined.

Lemma failed_start_stores_nothing_witness :
  (NewSASVerificationWith (host := offlineHost) alice bobDevice theHooks "t1" 600
     ("AK", None) "42").1 = inr ErrTransport /\
  keyVerificationTransactionState
    (NewSASVerificationWith (host := offlineHost) alice bobDevice theHooks "t1" 600
       ("AK", None) "42").2 = keyVerificationTransactionState alice.
Proof.
  split; [vm_compute; reflexivity |].
  refine (proj1 (proj2 (failed_start_stores_nothing (host := offlineHost)
                          alice bobDevice theHooks "t1" 600 ("AK", None) "42" _ _))).
  - vm_compute. discriminate.
  - left. reflexivity.
Defined.

Lemma accept_refuses_other_methods_witness :
  onlyEmits alice (SendSASVerificationAccept alice bob qrStart "AK" ["decimal"]).2
    [cancelMessage bob "BOBDEV" "t2" "Unknown verification method: m.qr_code.scan.v1"
       VerificationCancelUnknownMethod].
Proof.
  refine (proj2 (accept_refuses_other_methods (host := host) alice bob qrStart "AK"
                   ["decimal"] _)).
  vm_compute. discriminate.
Defined.

Lemma sas_initiator_first_witness :
  stored aliceAfterStart bob "t1" 0 recordAfterStart /\
  newEffects aliceAfterStart (handleVerificationKey aliceAfterStart bob bobKey) =
    [ExtendTimeout 0;
     SendToDevice bob "BOBDEV" ToDeviceVerificationKey
       (ContentKey {| key_TransactionID := "t1"; key_Key := "AK" |});
     GoVerifySASMatch 0 "t1" bobDevice "emoji/BK/AK/t1"].
Proof.
  pose proof aliceAfterStart_record as Hst.
  split; [exact Hst |].
  exact (proj1 (proj2 (sas_initiator_first (host := host) aliceAfterStart bob bobKey 0
                         recordAfterStart ("AK", Some "BK") "emoji"
                         Hst eq_refl eq_refl eq_refl eq_refl eq_refl))
           eq_refl eq_refl).
Defined.

Lemma records_stay_ok_witness :
  heap alice = ∅ /\ recordOK recordAfterKey.
Proof.
  split; [reflexivity |].
  refine (records_stay_ok alice
            [InStart bob bobStart 600 ("AK", None);
             InKey bob {| key_TransactionID := "t1"; key_Key := "BK" |}]
            eq_refl 0 recordAfterKey _).
  vm_compute. reflexivity.
Defined.

Lemma honest_commitment_passes_witness :
  stored aliceStarted bob "t1" 0 recordStarted /\
  stored
    (handleVerificationKey
       (handleVerificationAccept aliceStarted bob (bobAccept honestCommitment)) bob bobKey)
    bob "t1" 0
    (set_keyReceived
       (set_sas (set_accepted recordStarted honestCommitment (Some "emoji"))
          ("AK", Some "BK")) true).
Proof.
  pose proof aliceStarted_record as Hst.
  split; [exact Hst |].
  exact (proj1 (honest_commitment_passes (host := host) aliceStarted bob
                  (bobAccept honestCommitment) bobKey 0 recordStarted ("AK", Some "BK")
                  "emoji" ["decimal"]
                  Hst eq_refl eq_refl eq_refl eq_refl eq_refl eq_refl eq_refl eq_refl
                  eq_refl eq_refl eq_refl)).
Defined.

Lemma both_sides_same_sas_witness :
  newEffects (aliceAccepted honestCommitment)
    (handleVerificationKey (aliceAccepted honestCommitment) bob bobKey) =
    [ExtendTimeout 0; GoVerifySASMatch 0 "t1" bobDevice "emoji/AK/BK/t1"]
  /\ newEffects
       (step bobMachine
          (InStart "@alice:example.org"
             (startEventOf alice "t1" (VerificationMethods theHooks)) 600 ("BK", None)))
       (handleVerificationKey
          (step bobMachine
             (InStart "@alice:example.org"
                (startEventOf alice "t1" (VerificationMethods theHooks)) 600 ("BK", None)))
          "@alice:example.org" {| key_TransactionID := "t1"; key_Key := "AK" |}) =
     [ExtendTimeout 0;
      SendToDevice "@alice:example.org" "ALICEDEV" ToDeviceVerificationKey (ContentKey bobKey);
      GoVerifySASMatch 0 "t1"
        {| UserID_ := "@alice:example.org"; DeviceID_ := "ALICEDEV";
           SigningKey_ := "ed:ALICEDEV"; Trust := TrustStateUnset |}
        "emoji/AK/BK/t1"].
Proof.
  refine (both_sides_same_sas (host := host)
            (aliceAccepted honestCommitment)
            (step bobMachine
               (InStart "@alice:example.org"
                  (startEventOf alice "t1" (VerificationMethods theHooks)) 600 ("BK", None)))
            "t1" 0 0 (recordAccepted honestCommitment)
            {| sas := ("BK", None);
               otherDevice :=
                 {| UserID_ := "@alice:example.org"; DeviceID_ := "ALICEDEV";
                    SigningKey_ := "ed:ALICEDEV"; Trust := TrustStateUnset |};
               initiatedByUs := false; verificationStarted := true; keyReceived := false;
               sasMatched := None; commitment := ""; startEventCanonical := "";
               hooks := theHooks; chosenSASMethod := Some "emoji" |}
            ("AK", Some "BK") ("BK", Some "AK") "emoji" "emoji/AK/BK/t1"
            _ _ eq_refl eq_refl eq_refl eq_refl eq_refl eq_refl eq_refl eq_refl
            eq_refl eq_refl eq_refl eq_refl eq_refl eq_refl eq_refl eq_refl
            (fun _ _ _ _ _ _ _ => eq_refl) eq_refl).
  - split; vm_compute; reflexivity.
  - split; vm_compute; reflexivity.
Defined.

Lemma known_message_extends_timer_witness :
  stored aliceAfterKey bob "t1" 0 recordAfterKey /\
  exists rest,
    newEffects aliceAfterKey (step aliceAfterKey (InMac bob bobMac)) = ExtendTimeout 0 :: rest.
Proof.
  pose proof aliceAfterKey_record as Hst.
  split; [exact Hst |].
  exact (known_message_extends_timer aliceAfterKey bob "t1" 0 recordAfterKey
           (InMac bob bobMac) Hst eq_refl
           (or_intror (or_intror (ex_intro _ bobMac (conj eq_refl eq_refl))))).
Defined.

End Coverage.
